(** * django-htk: CPQ quotes, invoices and line items; view helpers

    A shallow embedding of [apps/cpq/models.py] and [view_helpers.py].

    - Python integers are [Z]; [a / b] on integers is Python 2 floor division
      ([Z.div]): the module uses [__unicode__], [django.core.urlresolvers] and
      no [from __future__ import division].
    - [decimal.Decimal] values are a coefficient and an exponent
      ([PyDecimal.t]); their meaning is a rational number ([PyDecimal.value]).
    - The database is an explicit record [DB] passed to every method; a method
      that writes returns the new database.
    - A raised exception is the [Raise] outcome of [result]. *)

From Stdlib Require Import ZArith QArith Qpower Lia List Ascii String.
From Stdlib Require Import Decimal DecimalString DecimalZ.
From stdpp Require Import base option strings gmap.

Import ListNotations.
Local Open Scope string_scope.
Local Open Scope Z_scope.

(** ** Exceptions *)

Inductive exn : Type :=
| ValueError      (* json.loads on malformed text, Enum(value) on a non-member *)
| DoesNotExist    (* Model.objects.get with no matching row *)
| ReError         (* re.match on a pattern the re module rejects *)
| TemplateDoesNotExist.   (* loader.get_template on an unknown name *)

Inductive result (A : Type) : Type :=
| Ok (a : A)
| Raise (e : exn).
Arguments Ok {A} a.
Arguments Raise {A} e.

(** Sequencing: the first exception raised ends the computation. *)
#[global] Instance result_ret : MRet result := fun A a => Ok a.
#[global] Instance result_bind : MBind result := fun A B k r =>
  match r with
  | Ok a => k a
  | Raise e => Raise e
  end.

(** A [for] loop whose body may raise: [body] updates the loop's variable. *)
Fixpoint for_each {A S : Type} (body : S -> A -> result S) (items : list A) (s : S)
  : result S :=
  match items with
  | [] => Ok s
  | item :: items' => s' ← body s item; for_each body items' s'
  end.

(** ** Decimal numbers (Python's [decimal.Decimal], the values of a [CurrencyField])

    Addition, multiplication and comparison as the [decimal] module defines
    them for finite numbers whose results fit the context precision, where
    no rounding takes place. *)

Module PyDecimal.

(** A finite decimal [coefficient * 10 ^ exponent]. *)
Record t : Type := mk { coefficient : Z; exponent : Z }.

(** [Decimal(n)] for a Python integer [n]; an integer operand of a decimal
    operation is converted this way. *)
Definition of_int (n : Z) : t := mk n 0.

(** The coefficient of [d] once rewritten with the smaller exponent [e]. *)
Definition rescale (d : t) (e : Z) : Z := coefficient d * 10 ^ (exponent d - e).

(** [a + b]: operands are aligned on the smaller exponent. *)
Definition add (a b : t) : t :=
  let e := Z.min (exponent a) (exponent b) in
  mk (rescale a e + rescale b e) e.

(** [a * b]: coefficients multiply, exponents add. *)
Definition mul (a b : t) : t :=
  mk (coefficient a * coefficient b) (exponent a + exponent b).

(** [a < b] compares the numbers, not the representations. *)
Definition ltb (a b : t) : bool :=
  let e := Z.min (exponent a) (exponent b) in
  rescale a e <? rescale b e.

Definition ten : Q := 10 # 1.

(** The rational number a decimal stands for. *)
Definition value (d : t) : Q :=
  (inject_Z (coefficient d) * Qpower ten (exponent d))%Q.

End PyDecimal.

(** ** Line items ([BaseCPQLineItem])

    Modelled from the spec: [CurrencyField] ([htk.fields], not under src/)
    holds a fixed-point currency amount, a [decimal.Decimal]. *)

Record LineItem : Type := {
  name : string;
  description : string;
  unit_cost : PyDecimal.t;   (* CurrencyField(default=0) *)
  quantity : Z               (* PositiveIntegerField(default=1) *)
}.

(** [BaseCPQLineItem.get_amount] *)
Definition get_amount (self : LineItem) : PyDecimal.t :=
  let amount := PyDecimal.mul (unit_cost self) (PyDecimal.of_int (quantity self)) in
  amount.

(** ** The database *)

(** Modelled from the spec: the payment-provider integration (not under src/)
    lists the charges of a customer reference, each with an [amount] and an
    [amount_refunded]; the amounts are integers, in cents. *)
Record Charge : Type := {
  amount : Z;
  amount_refunded : Z
}.

(** The tables the models read and write.  A line-item row is the foreign key
    of its owner and the item; a customer attribute is keyed by the customer
    and the attribute key; a payment-provider customer is known by the charges
    its [get_charges()] lists. *)
Record DB : Type := {
  quote_line_items : list (Z * LineItem);
  group_quote_line_items : list (Z * LineItem);
  invoice_line_items : list (Z * LineItem);
  customer_attributes : gmap (Z * string) string;
  stripe_customers : gmap Z (list Charge)
}.

(** The related manager [owner.line_items.all()] over a line-item table. *)
Definition line_items_all (table : list (Z * LineItem)) (owner : Z) : list LineItem :=
  map snd (filter (fun row => fst row = owner) table).

(** [owner.line_items.exists()] *)
Definition line_items_exists (table : list (Z * LineItem)) (owner : Z) : bool :=
  match line_items_all table owner with
  | [] => false
  | _ :: _ => true
  end.

(** Modelled from the spec: the customer model's attribute bag
    ([get_attribute] / [set_attribute], not under src/): a value stored under
    a key is read back under that key; an unset key reads as [None]. *)
Definition get_attribute (db : DB) (customer : Z) (key : string) : option string :=
  customer_attributes db !! (customer, key).

Definition set_attribute (db : DB) (customer : Z) (key value : string) : DB :=
  {| quote_line_items := quote_line_items db;
     group_quote_line_items := group_quote_line_items db;
     invoice_line_items := invoice_line_items db;
     customer_attributes := <[(customer, key) := value]> (customer_attributes db);
     stripe_customers := stripe_customers db |}.

(** [StripeCustomerModel.objects.get(id=...)] followed by [get_charges()]. *)
Definition stripe_customer_get_charges (db : DB) (stripe_customer_id : Z)
  : result (list Charge) :=
  match stripe_customers db !! stripe_customer_id with
  | Some charges => Ok charges
  | None => Raise DoesNotExist
  end.

(** ** Documents: the abstract base class [AbstractCPQQuote]

    [get_notes] and [get_line_items] are the methods subclasses override;
    [get_total] is written once against them. *)

Class AbstractCPQQuote (A : Type) : Type := {
  get_notes : DB -> A -> string;
  get_line_items : DB -> A -> list LineItem
}.

(** [AbstractCPQQuote.get_total] *)
Definition get_total {A : Type} `{AbstractCPQQuote A} (db : DB) (self : A) : PyDecimal.t :=
  let line_items := get_line_items db self in
  fold_left (fun subtotal line_item => PyDecimal.add subtotal (get_amount line_item))
            line_items (PyDecimal.of_int 0).

(** ** Group quotes ([BaseCPQGroupQuote]) *)

Module GroupQuote.

Record t : Type := mk { id : Z; notes : string; organization : Z }.

(** Inherited [AbstractCPQQuote.get_notes] and [get_line_items]. *)
Definition get_notes (db : DB) (self : t) : string :=
  let notes := notes self in
  notes.

Definition get_line_items (db : DB) (self : t) : list LineItem :=
  let line_items := line_items_all (group_quote_line_items db) (id self) in
  line_items.

(** [BaseCPQGroupQuote.customer] *)
Definition customer (self : t) : Z := organization self.

End GroupQuote.

#[global] Instance GroupQuote_document : AbstractCPQQuote GroupQuote.t := {
  get_notes := GroupQuote.get_notes;
  get_line_items := GroupQuote.get_line_items
}.

(** ** JSON text of a payment list

    [approve_and_pay] stores [json.dumps] of a list of payment-provider
    customer ids and [get_payments] reads it back with [json.loads].  The
    model covers arrays of integers, the only shape the module writes:
    other text makes [json_loads] raise. *)

(** [str(n)] for a Python integer. *)
Definition str (n : Z) : string := NilZero.string_of_int (Z.to_int n).

(** [", ".join(items)] *)
Fixpoint join_comma (items : list string) : string :=
  match items with
  | [] => ""
  | [item] => item
  | item :: rest => item +:+ ", " +:+ join_comma rest
  end.

(** [json.dumps(payments)] for a list of integers. *)
Definition json_dumps (payments : list Z) : string :=
  "[" +:+ join_comma (map str payments) +:+ "]".

(** The scanner of [json.loads], one character at a time. *)
Inductive json_state : Type :=
| JStart                            (* before the opening bracket *)
| JOpen                             (* after the opening bracket *)
| JSign                             (* after a minus sign *)
| JNumber (negative : bool) (digits : uint)   (* digits so far, last read first *)
| JAfter                            (* after a number *)
| JComma                            (* after a comma *)
| JEnd.                             (* after the closing bracket *)

Definition json_whitespace (c : ascii) : bool :=
  (Ascii.eqb c " " || Ascii.eqb c "009" || Ascii.eqb c "010" || Ascii.eqb c "013")%bool.

(** The integer a scanned number stands for. *)
Definition json_number (negative : bool) (digits : uint) : Z :=
  Z.of_int (if negative then Neg (Decimal.rev digits) else Pos (Decimal.rev digits)).

(** After a number: whitespace, a comma or the closing bracket. *)
Definition json_after (acc : list Z) (c : ascii) : option (json_state * list Z) :=
  if json_whitespace c then Some (JAfter, acc)
  else if Ascii.eqb c "," then Some (JComma, acc)
  else if Ascii.eqb c "]" then Some (JEnd, acc)
  else None.

(** The start of a number: a minus sign or a digit. *)
Definition json_value (acc : list Z) (c : ascii) : option (json_state * list Z) :=
  if Ascii.eqb c "-" then Some (JSign, acc)
  else match uint_of_char c (Some Nil) with
       | Some d => Some (JNumber false d, acc)
       | None => None
       end.

Definition json_step (st : json_state) (acc : list Z) (c : ascii)
  : option (json_state * list Z) :=
  match st with
  | JStart =>
      if json_whitespace c then Some (JStart, acc)
      else if Ascii.eqb c "[" then Some (JOpen, acc)
      else None
  | JOpen =>
      if json_whitespace c then Some (JOpen, acc)
      else if Ascii.eqb c "]" then Some (JEnd, acc)
      else json_value acc c
  | JComma =>
      if json_whitespace c then Some (JComma, acc)
      else json_value acc c
  | JSign =>
      match uint_of_char c (Some Nil) with
      | Some d => Some (JNumber true d, acc)
      | None => None
      end
  | JNumber negative digits =>
      match uint_of_char c (Some digits) with
      | Some digits' =>
          (* a number has no leading zero *)
          match digits with
          | D0 Nil => None
          | _ => Some (JNumber negative digits', acc)
          end
      | None => json_after (json_number negative digits :: acc) c
      end
  | JAfter => json_after acc c
  | JEnd => if json_whitespace c then Some (JEnd, acc) else None
  end.

Fixpoint json_scan (st : json_state) (acc : list Z) (text : string) : option (list Z) :=
  match text with
  | EmptyString =>
      match st with
      | JEnd => Some (List.rev acc)
      | _ => None
      end
  | String c text' =>
      match json_step st acc c with
      | Some (st', acc') => json_scan st' acc' text'
      | None => None
      end
  end.

(** [json.loads(text)]: the list, or [ValueError]. *)
Definition json_loads (text : string) : result (list Z) :=
  match json_scan JStart [] text with
  | Some payments => Ok payments
  | None => Raise ValueError
  end.

(** ** Quotes ([BaseCPQQuote]) *)

Module Quote.

Record t : Type := mk {
  id : Z;
  notes : string;
  customer : Z;                         (* foreign key *)
  group_quote : option GroupQuote.t     (* nullable foreign key *)
}.

(** [use_group_quote]: [self.group_quote and not self.line_items.exists()] *)
Definition use_group_quote (db : DB) (self : t) : bool :=
  match group_quote self with
  | Some _ => negb (line_items_exists (quote_line_items db) (id self))
  | None => false
  end.

(** [get_notes].  The inner [None] case is not reached: [use_group_quote] is
    false without a group quote. *)
Definition get_notes (db : DB) (self : t) : string :=
  if use_group_quote db self then
    match group_quote self with
    | Some group_quote => GroupQuote.get_notes db group_quote
    | None => notes self
    end
  else notes self.

(** [get_line_items] *)
Definition get_line_items (db : DB) (self : t) : list LineItem :=
  if use_group_quote db self then
    match group_quote self with
    | Some group_quote => GroupQuote.get_line_items db group_quote
    | None => line_items_all (quote_line_items db) (id self)
    end
  else line_items_all (quote_line_items db) (id self).

(** ['quote_%s_payments' % self.id] *)
Definition payments_key (self : t) : string :=
  "quote_" +:+ str (id self) +:+ "_payments".

(** [get_payments]: [json.loads(payments) if payments else []] *)
Definition get_payments (db : DB) (self : t) : result (list Z) :=
  let key := payments_key self in
  let payments := get_attribute db (customer self) key in
  match payments with
  | None => Ok []
  | Some "" => Ok []
  | Some text => json_loads text
  end.

(** [approve_and_pay]; [stripe_customer] is the id of the payment-provider
    customer. *)
Definition approve_and_pay (db : DB) (self : t) (stripe_customer : Z) : result DB :=
  payments ← get_payments db self;
  let payments := (payments ++ [stripe_customer])%list in
  let key := payments_key self in
  Ok (set_attribute db (customer self) key (json_dumps payments)).

(** [get_charges] *)
Definition get_charges (db : DB) (self : t) : result (list Charge) :=
  payments ← get_payments db self;
  for_each (fun all_charges stripe_customer_id =>
              charges ← stripe_customer_get_charges db stripe_customer_id;
              Ok (fold_left (fun all_charges charge => (all_charges ++ [charge])%list)
                            charges all_charges))
           payments [].

(** [get_amount_paid] *)
Definition get_amount_paid (db : DB) (self : t) : result Z :=
  let subtotal := 0 in
  payments ← get_payments db self;
  for_each (fun subtotal stripe_customer_id =>
              charges ← stripe_customer_get_charges db stripe_customer_id;
              Ok (fold_left (fun subtotal charge =>
                               subtotal + (amount charge / 100 - amount_refunded charge / 100))
                            charges subtotal))
           payments subtotal.

End Quote.

#[global] Instance Quote_document : AbstractCPQQuote Quote.t := {
  get_notes := Quote.get_notes;
  get_line_items := Quote.get_line_items
}.

(** The three payment-status labels. *)
Definition NOT_PAID : string := "Not Paid".
Definition PARTIALLY_PAID : string := "Partially Paid".
Definition PAID_IN_FULL : string := "Paid in Full".

(** [BaseCPQQuote.payment_status], the function under [CachedAttribute]:
    the value computed on first access. *)
Definition payment_status (db : DB) (self : Quote.t) : result string :=
  amount_paid ← Quote.get_amount_paid db self;
  let total := get_total db self in
  Ok (if amount_paid =? 0 then NOT_PAID
      else if PyDecimal.ltb (PyDecimal.of_int amount_paid) total then PARTIALLY_PAID
      else PAID_IN_FULL).

(** ** Writes to the quote line-item table (the ORM calls of a caller) *)

Definition with_quote_line_items (db : DB) (rows : list (Z * LineItem)) : DB :=
  {| quote_line_items := rows;
     group_quote_line_items := group_quote_line_items db;
     invoice_line_items := invoice_line_items db;
     customer_attributes := customer_attributes db;
     stripe_customers := stripe_customers db |}.

(** [QuoteLineItem.objects.create(quote=quote, ...)] *)
Definition add_line_item (db : DB) (quote : Quote.t) (item : LineItem) : DB :=
  with_quote_line_items db (quote_line_items db ++ [(Quote.id quote, item)])%list.

(** [quote.line_items.all().delete()] *)
Definition delete_line_items (db : DB) (quote : Quote.t) : DB :=
  with_quote_line_items db
    (filter (fun row => fst row <> Quote.id quote) (quote_line_items db)).

(** ** Invoices ([BaseCPQInvoice]) *)

(** A Python [Enum] class is the list of its members in definition order;
    calling the class looks a member up by value. *)
Record EnumMember : Type := { member_name : string; member_value : Z }.

Definition enum_call (members : list EnumMember) (value : Z) : result EnumMember :=
  match List.find (fun m => member_value m =? value) members with
  | Some m => Ok m
  | None => Raise ValueError
  end.

Module Invoice.

Record t : Type := mk {
  id : Z;
  notes : string;
  customer : Z;
  invoice_type : Z;       (* PositiveIntegerField *)
  paid : bool;
  payment_terms : Z;      (* PositiveIntegerField *)
  quote : option Z
}.

(** Inherited [AbstractCPQQuote.get_notes] and [get_line_items]. *)
Definition get_notes (db : DB) (self : t) : string :=
  let notes := notes self in
  notes.

Definition get_line_items (db : DB) (self : t) : list LineItem :=
  let line_items := line_items_all (invoice_line_items db) (id self) in
  line_items.

Section Enums.

(** The enumerations of [htk.apps.cpq.enums] and [htk.utils.enums.enum_to_str]
    are not under src/: the closed lists of members and the label function
    are parameters. *)
Variable InvoiceType : list EnumMember.
Variable InvoicePaymentTerm : list EnumMember.
Variable enum_to_str : EnumMember -> string.

(** [get_invoice_type] *)
Definition get_invoice_type (self : t) : result string :=
  invoice_type ← enum_call InvoiceType (invoice_type self);
  let str_value := enum_to_str invoice_type in
  Ok str_value.

(** [get_type] *)
Definition get_type (self : t) : result string := get_invoice_type self.

(** [get_payment_terms] *)
Definition get_payment_terms (self : t) : result string :=
  invoice_payment_term ← enum_call InvoicePaymentTerm (payment_terms self);
  let str_value := enum_to_str invoice_payment_term in
  Ok str_value.

End Enums.

End Invoice.

#[global] Instance Invoice_document : AbstractCPQQuote Invoice.t := {
  get_notes := Invoice.get_notes;
  get_line_items := Invoice.get_line_items
}.

(** ** View helpers ([view_helpers.py]) *)

(** A match object of the [re] module, by what [group(1)] returns: the text
    of the first group, or [None] when the group took no part in the match. *)
Record MatchObject : Type := { group1 : option string }.

(** ['%s' % value] for a string or [None]. *)
Definition format_s (value : option string) : string :=
  match value with
  | Some text => text
  | None => "None"
  end.

Section ViewHelpers.

(** Python's [re.match pattern string]: [re.error] on a pattern the module
    rejects, [None] when the pattern does not match at the start of the
    string, a match object otherwise. *)
Variable re_match : string -> string -> result (option MatchObject).

(** Django's [loader.get_template]: the template, or an exception,
    [TemplateDoesNotExist] among them. *)
Variable Template : Type.
Variable get_template : string -> result Template.

(** The candidate path [get_javascripts] derives ([js_fragment_filename]). *)
Definition js_fragment_filename (template_name template_prefix : string) : result string :=
  admin_template_match ← re_match (template_prefix +:+ "admintools/(.*)") template_name;
  match admin_template_match with
  | Some m =>
      Ok (template_prefix +:+ "admintools/fragments/js/" +:+ format_s (group1 m))
  | None =>
      template_prefix_match ← re_match (template_prefix +:+ "(.*)") template_name;
      match template_prefix_match with
      | Some m => Ok (template_prefix +:+ "fragments/js/" +:+ format_s (group1 m))
      | None => Ok ("fragments/js/" +:+ template_name)
      end
  end.

(** [try: t = loader.get_template(name) except TemplateDoesNotExist: t = None] *)
Definition try_get_template (name : string) : result (option Template) :=
  match get_template name with
  | Ok t => Ok (Some t)
  | Raise TemplateDoesNotExist => Ok None
  | Raise e => Raise e
  end.

(** [get_javascripts] *)
Definition get_javascripts (template_name template_prefix : string) : result (list string) :=
  let javascripts := [] in
  js_fragment_filename ← js_fragment_filename template_name template_prefix;
  t ← try_get_template js_fragment_filename;
  Ok (match t with
      | Some _ => (javascripts ++ [js_fragment_filename])%list
      | None => javascripts
      end).

End ViewHelpers.

(** *** A literal regular-expression matcher

    [re.match] on a pattern made of literal characters followed by one group
    of any characters (dot, star, in parentheses): the string has to start
    with the literal text, and the group takes the rest of the line.  Used to
    run [get_javascripts] on path prefixes. *)

Definition regex_special (c : ascii) : bool :=
  existsb (Ascii.eqb c) (list_ascii_of_string ".^$*+?{}[]\|()").

Fixpoint all_literal (text : string) : bool :=
  match text with
  | EmptyString => true
  | String c text' => negb (regex_special c) && all_literal text'
  end.

(** The literal text before the final group. *)
Fixpoint literal_before_group (pattern : string) : option string :=
  if String.eqb pattern "(.*)" then Some ""
  else match pattern with
       | EmptyString => None
       | String c pattern' => option_map (String c) (literal_before_group pattern')
       end.

Fixpoint strip_prefix (prefix text : string) : option string :=
  match prefix, text with
  | EmptyString, _ => Some text
  | String a prefix', String b text' =>
      if Ascii.eqb a b then strip_prefix prefix' text' else None
  | String _ _, EmptyString => None
  end.

(** What the group takes: everything up to the first newline. *)
Fixpoint first_line (text : string) : string :=
  match text with
  | EmptyString => ""
  | String c text' => if Ascii.eqb c "010" then "" else String c (first_line text')
  end.

Definition re_match_literal (pattern text : string) : result (option MatchObject) :=
  match literal_before_group pattern with
  | Some literal =>
      if all_literal literal then
        Ok (match strip_prefix literal text with
            | Some rest => Some {| group1 := Some (first_line rest) |}
            | None => None
            end)
      else Raise ReError
  | None => Raise ReError
  end.

(** ** Sums the specification speaks of *)

(** The sum of [amount()] over line items, as a rational number. *)
Definition sum_amounts (items : list LineItem) : Q :=
  fold_right (fun item total => (PyDecimal.value (get_amount item) + total)%Q) 0%Q items.

(** The sum of [amount / 100 - amount_refunded / 100] over charges. *)
Definition sum_paid (charges : list Charge) : Z :=
  fold_right (fun charge total => (amount charge / 100 - amount_refunded charge / 100) + total)
             0 charges.

(** The sum of [amount - amount_refunded] over charges, in cents. *)
Definition sum_net_cents (charges : list Charge) : Z :=
  fold_right (fun charge total => (amount charge - amount_refunded charge) + total) 0 charges.

(** ** Sample data *)

Definition empty_db : DB :=
  {| quote_line_items := [];
     group_quote_line_items := [];
     invoice_line_items := [];
     customer_attributes := ∅;
     stripe_customers := ∅ |}.

Definition widget : LineItem :=
  {| name := "widget"; description := "a widget";
     unit_cost := PyDecimal.mk 1999 (-2); quantity := 3 |}.

Definition sample_group_quote : GroupQuote.t :=
  GroupQuote.mk 7 "group notes" 1.

(** A quote of customer 5 that refers to the group quote. *)
Definition sample_quote : Quote.t :=
  Quote.mk 42 "own notes" 5 (Some sample_group_quote).

(** A quote without a group quote. *)
Definition plain_quote : Quote.t := Quote.mk 43 "own notes" 5 None.

(** Customer 5 paid for quote 43 through payment-provider customer 9, who was
    charged 50.00 once; the quote has one line item of 3 widgets at 19.99. *)
Definition paid_db : DB :=
  {| quote_line_items := [(43, widget)];
     group_quote_line_items := [];
     invoice_line_items := [];
     customer_attributes := {[ (5, "quote_43_payments") := "[9]" ]};
     stripe_customers := {[ 9 := [ {| amount := 5000; amount_refunded := 0 |} ] ]} |}.

Definition gadget : LineItem :=
  {| name := "gadget"; description := "a gadget";
     unit_cost := PyDecimal.mk 500 (-2); quantity := 2 |}.

(** Group quote 7 has one line item; quote 42 has none of its own. *)
Definition group_db : DB :=
  {| quote_line_items := [];
     group_quote_line_items := [(7, gadget)];
     invoice_line_items := [];
     customer_attributes := ∅;
     stripe_customers := ∅ |}.

(** Quote 42 is given a line item of its own, which is then removed. *)
Definition item_added_db : DB := add_line_item group_db sample_quote widget.
Definition item_removed_db : DB := delete_line_items item_added_db sample_quote.

(** The attribute of quote 43's payments is present but empty. *)
Definition blank_db : DB :=
  {| quote_line_items := [];
     group_quote_line_items := [];
     invoice_line_items := [];
     customer_attributes := {[ (5, "quote_43_payments") := "" ]};
     stripe_customers := ∅ |}.

(** Sample enumerations, and the member name as its label. *)
Definition sample_invoice_types : list EnumMember :=
  [ {| member_name := "INVOICE"; member_value := 1 |};
    {| member_name := "REIMBURSEMENT"; member_value := 2 |} ].

Definition sample_payment_terms : list EnumMember :=
  [ {| member_name := "PAYMENT_DUE_UPON_RECEIPT"; member_value := 1 |};
    {| member_name := "PAYABLE_NET_14"; member_value := 2 |};
    {| member_name := "PAYABLE_NET_30"; member_value := 3 |} ].

Definition sample_invoice : Invoice.t := Invoice.mk 1 "" 5 2 false 3 None.

(** An invoice whose stored codes are no member values. *)
Definition stale_invoice : Invoice.t := Invoice.mk 2 "" 5 9 false 0 None.

(** A template loader that knows one script fragment. *)
Definition sample_loader (name : string) : result unit :=
  if String.eqb name "fragments/js/page.html" then Ok tt
  else Raise TemplateDoesNotExist.

(** As [paid_db], with the one charge refunded in full. *)
Definition refunded_db : DB :=
  {| quote_line_items := [(43, widget)];
     group_quote_line_items := [];
     invoice_line_items := [];
     customer_attributes := {[ (5, "quote_43_payments") := "[9]" ]};
     stripe_customers := {[ 9 := [ {| amount := 5000; amount_refunded := 5000 |} ] ]} |}.

(** The sum of [coefficient * quantity] over line items: the total in the
    smallest unit, when all unit costs have the same number of places. *)
Definition sum_coefficients (items : list LineItem) : Z :=
  fold_right (fun item total =>
                PyDecimal.coefficient (unit_cost item) * quantity item + total)
             0 items.

(** An invoice of customer 5 raised from quote 43, and its line item. *)
Definition quote_invoice : Invoice.t := Invoice.mk 3 "" 5 1 false 1 (Some 43).

Definition invoiced_db : DB :=
  {| quote_line_items := [(43, widget)];
     group_quote_line_items := [(7, gadget)];
     invoice_line_items := [(3, gadget); (4, widget)];
     customer_attributes := ∅;
     stripe_customers := ∅ |}.

(** The same rows in another order. *)
Definition reordered_db : DB :=
  {| quote_line_items := [(43, widget)];
     group_quote_line_items := [(7, gadget)];
     invoice_line_items := [(4, widget); (3, gadget)];
     customer_attributes := ∅;
     stripe_customers := ∅ |}.

(** Every quote's payment list can be read: no stored text is malformed. *)
Definition payments_readable (db : DB) : Prop :=
  forall quote : Quote.t, exists payments, Quote.get_payments db quote = Ok payments.

(** ** The asset version ([get_asset_version]) *)

(** A date and time in UTC, as [utcnow()] returns it. *)
Record datetime : Type := {
  year : Z; month : Z; day : Z; hour : Z; minute : Z; second : Z
}.

(** A number printed in decimal and padded with zeros on the left to [width]
    characters, as [strftime] prints a numeric field. *)
Definition zero_pad (width : nat) (n : Z) : string :=
  let digits := str n in
  string_of_list_ascii (replicate (width - String.length digits) "0"%char) +:+ digits.

(** [now.strftime('%Y%m%d%H')] *)
Definition strftime_YmdH (now : datetime) : string :=
  zero_pad 4 (year now) +:+ zero_pad 2 (month now) +:+ zero_pad 2 (day now)
  +:+ zero_pad 2 (hour now).

(** [get_asset_version].  Modelled from the spec: [StaticAssetVersionCache]
    ([htk.cachekeys], not under src/) is a process-wide cache whose [get()]
    gives a string or [None]; [cached] is what it gives, [now] what
    [utcnow()] gives. *)
Definition get_asset_version (cached : option string) (now : datetime) : string :=
  let asset_version := cached in
  match asset_version with
  | Some asset_version => asset_version
  | None => strftime_YmdH now
  end.

(** A year of four digits, a month, a day of a month and an hour of a day. *)
Definition calendar_hour (t : datetime) : Prop :=
  1000 <= year t <= 9999 /\ 1 <= month t <= 12 /\ 1 <= day t <= 31 /\ 0 <= hour t <= 23.

(** The number a zero-padded field stands for. *)
Definition field_number (text : string) : option Z :=
  option_map Z.of_int (NilZero.int_of_string text).

(** ** The template context ([wrap_data], [render_to_response_custom]) *)

Record User : Type := { username : string; is_authenticated : bool }.

Record HttpRequest : Type := {
  path : string;
  get_host : string;
  is_secure : bool;
  GET : gmap string string;      (* the query parameters *)
  user : User
}.

(** What the inner dictionaries of a template context hold. *)
Inductive field : Type :=
| FStr (text : string)
| FBool (b : bool)
| FRequest (request : HttpRequest).

(** The values a template context holds. *)
Inductive value : Type :=
| VNone
| VStr (text : string)
| VList (items : list string)
| VUser (user : User)
| VDict (entries : list (string * field)).

(** The settings [wrap_data] reads. *)
Record Settings : Type := { ROLLBAR_ENV : string; ENV_DEV : bool }.

(** The truth value of [request.GET.get(key, False)]: a parameter that is
    present and not empty. *)
Definition query_flag (request : HttpRequest) (key : string) : bool :=
  match GET request !! key with
  | Some "" => false
  | Some _ => true
  | None => false
  end.

Section Context.

(** Django's [csrf(request)], a dictionary with the token; [gethostname()];
    the settings; the cached asset version and the clock. *)
Variable csrf : HttpRequest -> gmap string value.
Variable gethostname : string.
Variable settings : Settings.
Variable cached : option string.
Variable utcnow : datetime.

(** [wrap_data].  The dictionary returned is the caller's, updated in place. *)
Definition wrap_data (request : HttpRequest) (data : option (gmap string value))
  : gmap string value :=
  let data := match data with
              | None => ∅
              | Some data => data
              end in
  let data := csrf request ∪ data in
  let path := path request in
  let host := get_host request in
  let is_secure := is_secure request in
  let full_uri := ("http" +:+ (if is_secure then "s" else "")) +:+ "://" +:+ host +:+ path in
  let data := <["request" := VDict [("request", FRequest request);
                                    ("is_secure", FBool is_secure);
                                    ("host", FStr host);
                                    ("path", FStr path);
                                    ("full_uri", FStr full_uri)]]> data in
  let data := <["server" := VDict [("hostname", FStr gethostname)]]> data in
  let data := <["rollbar_env" := VStr (ROLLBAR_ENV settings)]> data in
  let asset_version := get_asset_version cached utcnow in
  let useless := ENV_DEV settings && query_flag request "useless" in
  let data := <["css_rel" := VStr (if useless then "stylesheet/less" else "stylesheet")]>
                data in
  let data := <["css_ext" := VStr (if useless then "less" else "css?v=" +:+ asset_version)]>
                data in
  let data := <["asset_version" := VStr asset_version]> data in
  let user := if is_authenticated (user request) then VUser (user request) else VNone in
  let data := <["user" := user]> data in
  let data := <["errors" := VList []]> data in
  data.

(** Django's [re.match], template loader and [render_to_response]. *)
Variable re_match : string -> string -> result (option MatchObject).
Variable Template : Type.
Variable get_template : string -> result Template.
Variable Response : Type.
Variable render_to_response : string -> gmap string value -> Response.

(** [render_to_response_custom] *)
Definition render_to_response_custom (template_name : string)
    (data : option (gmap string value)) (template_prefix : string) : result Response :=
  let data := match data with
              | None => ∅
              | Some data => data
              end in
  javascripts ← get_javascripts re_match Template get_template template_name template_prefix;
  let data := <["javascripts" := VList javascripts]> data in
  let response := render_to_response template_name data in
  Ok response.

End Context.

(** The keys [wrap_data] sets itself. *)
Definition wrap_data_keys : list string :=
  ["request"; "server"; "rollbar_env"; "css_rel"; "css_ext"; "asset_version"; "user";
   "errors"].

(** Sample requests and settings. *)
Definition visitor : User := {| username := ""; is_authenticated := false |}.

Definition less_request : HttpRequest :=
  {| path := "/quotes"; get_host := "example.com"; is_secure := true;
     GET := {[ "useless" := "1" ]}; user := visitor |}.

Definition production : Settings := {| ROLLBAR_ENV := "production"; ENV_DEV := false |}.

Definition noon : datetime :=
  {| year := 2015; month := 3; day := 7; hour := 12; minute := 30; second := 59 |}.

Definition token_only (request : HttpRequest) : gmap string value :=
  {[ "csrf_token" := VStr "token" ]}.

(** * Properties *)

(** ** The definitions on sample data *)

Example decimal_add_aligns :
  PyDecimal.add (PyDecimal.mk 15 (-1)) (PyDecimal.mk 25 (-2)) = PyDecimal.mk 175 (-2).
Proof. reflexivity. Qed.

Example decimal_int_below :
  PyDecimal.ltb (PyDecimal.of_int 59) (PyDecimal.mk 5997 (-2)) = true
  /\ PyDecimal.ltb (PyDecimal.of_int 60) (PyDecimal.mk 5997 (-2)) = false.
Proof. split; reflexivity. Qed.

Example str_of_integers : str 0 = "0" /\ str 907 = "907" /\ str (-12) = "-12".
Proof. repeat split. Qed.

Example json_dumps_three : json_dumps [12; 0; -7] = "[12, 0, -7]".
Proof. reflexivity. Qed.

Example json_loads_three : json_loads "[12, 0,-7 ]" = Ok [12; 0; -7].
Proof. reflexivity. Qed.

Example json_loads_empty_array : json_loads "[ ]" = Ok [].
Proof. reflexivity. Qed.

Example json_loads_malformed :
  json_loads "[012]" = Raise ValueError
  /\ json_loads "[1,]" = Raise ValueError
  /\ json_loads "[1] 2" = Raise ValueError
  /\ json_loads "12" = Raise ValueError.
Proof. repeat split. Qed.

Example payments_key_of_quote : Quote.payments_key plain_quote = "quote_43_payments".
Proof. reflexivity. Qed.

Example total_of_three_widgets : get_total paid_db plain_quote = PyDecimal.mk 5997 (-2).
Proof. reflexivity. Qed.

Example status_of_paid_quote : payment_status paid_db plain_quote = Ok "Partially Paid".
Proof. vm_compute. reflexivity. Qed.

Example re_match_literal_prefix :
  re_match_literal "admin/(.*)" "admin/tools.html" = Ok (Some {| group1 := Some "tools.html" |})
  /\ re_match_literal "admin/admintools/(.*)" "admin/tools.html" = Ok None
  /\ re_match_literal "(admintools/(.*)" "page.html" = Raise ReError.
Proof. repeat split. Qed.

(** ** Decimal arithmetic is exact *)

Section DecimalFacts.

Import PyDecimal.

Lemma ten_nonzero : ~ (ten == 0)%Q.
Proof. unfold ten. intros H. discriminate H. Qed.

Lemma ten_power_pos (e : Z) : (0 < Qpower ten e)%Q.
Proof. apply Qpower_0_lt. reflexivity. Qed.

(** Rewriting a decimal with a smaller exponent keeps its value. *)
Lemma value_rescale (d : t) (e : Z) :
  e <= exponent d ->
  (value d == inject_Z (rescale d e) * Qpower ten e)%Q.
Proof.
  intros Hle. unfold value, rescale.
  rewrite inject_Z_mult, Zpower_Qpower by lia.
  change (inject_Z 10) with ten.
  rewrite <- Qmult_assoc, <- Qpower_plus by apply ten_nonzero.
  replace (exponent d - e + e) with (exponent d) by lia.
  reflexivity.
Qed.

Lemma value_of_int (n : Z) : (value (of_int n) == inject_Z n)%Q.
Proof. unfold value, of_int. simpl. ring. Qed.

Lemma value_add (a b : t) : (value (add a b) == value a + value b)%Q.
Proof.
  set (e := Z.min (exponent a) (exponent b)).
  rewrite (value_rescale a e), (value_rescale b e) by (subst e; lia).
  unfold add, value. fold e. simpl.
  rewrite inject_Z_plus. ring.
Qed.


Lemma ltb_value (a b : t) : ltb a b = true <-> (value a < value b)%Q.
Proof.
  set (e := Z.min (exponent a) (exponent b)).
  rewrite (value_rescale a e), (value_rescale b e) by (subst e; lia).
  rewrite Qmult_lt_r by apply ten_power_pos.
  rewrite <- Zlt_Qlt. unfold ltb. fold e. apply Z.ltb_lt.
Qed.

End DecimalFacts.

(** ** Line items and totals *)


Lemma fold_add_amounts (items : list LineItem) (subtotal : PyDecimal.t) :
  (PyDecimal.value
     (fold_left (fun subtotal item => PyDecimal.add subtotal (get_amount item))
                items subtotal)
   == PyDecimal.value subtotal + sum_amounts items)%Q.
Proof.
  revert subtotal. induction items as [| item items IH]; intros subtotal; simpl.
  - ring.
  - rewrite IH, value_add. ring.
Qed.

(** The total of any document is the sum of the amounts of the line items
    its [get_line_items] returns. *)
Lemma get_total_sum {A : Type} `{AbstractCPQQuote A} (db : DB) (self : A) :
  (PyDecimal.value (get_total db self) == sum_amounts (get_line_items db self))%Q.
Proof.
  unfold get_total. rewrite fold_add_amounts, value_of_int. ring.
Qed.

Lemma get_total_empty {A : Type} `{AbstractCPQQuote A} (db : DB) (self : A) :
  get_line_items db self = [] -> get_total db self = PyDecimal.of_int 0.
Proof. intros Hnil. unfold get_total. rewrite Hnil. reflexivity. Qed.

(** C5.  For a quote and for a group quote, [total()] is the sum of
    [amount()] over the effective line items, and it is the integer zero when
    that collection is empty. *)
Theorem get_total_is_sum_of_amounts (db : DB) (quote : Quote.t) (group_quote : GroupQuote.t) :
  ((PyDecimal.value (get_total db quote) == sum_amounts (Quote.get_line_items db quote))%Q
   /\ (Quote.get_line_items db quote = [] -> get_total db quote = PyDecimal.of_int 0))
  /\ ((PyDecimal.value (get_total db group_quote)
       == sum_amounts (GroupQuote.get_line_items db group_quote))%Q
      /\ (GroupQuote.get_line_items db group_quote = [] ->
          get_total db group_quote = PyDecimal.of_int 0)).
Proof.
  split; split.
  - exact (get_total_sum db quote).
  - exact (get_total_empty db quote).
  - exact (get_total_sum db group_quote).
  - exact (get_total_empty db group_quote).
Qed.

Lemma get_total_is_sum_of_amounts_witness :
  get_total empty_db sample_quote = PyDecimal.of_int 0
  /\ get_total empty_db sample_group_quote = PyDecimal.of_int 0.
Proof.
  destruct (get_total_is_sum_of_amounts empty_db sample_quote sample_group_quote)
    as [[_ Hquote] [_ Hgroup]].
  split; [apply Hquote | apply Hgroup]; reflexivity.
Defined.

(** ** Payment status *)

Lemma payment_labels_distinct :
  NOT_PAID <> PARTIALLY_PAID /\ NOT_PAID <> PAID_IN_FULL /\ PARTIALLY_PAID <> PAID_IN_FULL.
Proof. repeat split; discriminate. Qed.

(** The comparison [amount_paid < total] of an integer with a total. *)
Lemma paid_below_total (amount_paid : Z) (total : PyDecimal.t) :
  PyDecimal.ltb (PyDecimal.of_int amount_paid) total = true
  <-> (inject_Z amount_paid < PyDecimal.value total)%Q.
Proof. rewrite ltb_value, value_of_int. reflexivity. Qed.

Lemma payment_status_unfold (db : DB) (quote : Quote.t) (amount_paid : Z) :
  Quote.get_amount_paid db quote = Ok amount_paid ->
  payment_status db quote =
  Ok (if amount_paid =? 0 then NOT_PAID
      else if PyDecimal.ltb (PyDecimal.of_int amount_paid) (get_total db quote)
           then PARTIALLY_PAID
           else PAID_IN_FULL).
Proof. intros Hpaid. unfold payment_status. rewrite Hpaid. reflexivity. Qed.

(** C1, as the code has it.  Whenever the amount paid can be computed, the
    payment status is one of the three labels: "Not Paid" exactly when the
    amount paid is zero (also when the total is zero); "Partially Paid"
    exactly when the amount paid is not zero and below the total, so whenever
    [0 < amount_paid < total]; "Paid in Full" exactly when the amount paid is
    not zero and at least the total, the boundary [amount_paid = total]
    included. *)
Theorem payment_status_by_cases (db : DB) (quote : Quote.t) (amount_paid : Z) :
  Quote.get_amount_paid db quote = Ok amount_paid ->
  exists status,
    payment_status db quote = Ok status
    /\ (status = NOT_PAID \/ status = PARTIALLY_PAID \/ status = PAID_IN_FULL)
    /\ (status = NOT_PAID <-> amount_paid = 0)
    /\ (status = PARTIALLY_PAID <->
        amount_paid <> 0
        /\ (inject_Z amount_paid < PyDecimal.value (get_total db quote))%Q)
    /\ (status = PAID_IN_FULL <->
        amount_paid <> 0
        /\ (PyDecimal.value (get_total db quote) <= inject_Z amount_paid)%Q).
Proof.
  intros Hpaid. rewrite (payment_status_unfold _ _ _ Hpaid).
  destruct payment_labels_distinct as (Hnp & Hnf & Hpf).
  destruct (Z.eqb_spec amount_paid 0) as [Hzero | Hnonzero].
  - exists NOT_PAID. split; [reflexivity |]. split; [auto |].
    split; [tauto |]. split; split; intros Hcase; try congruence; tauto.
  - destruct (PyDecimal.ltb (PyDecimal.of_int amount_paid) (get_total db quote))
      eqn:Hlt.
    + apply paid_below_total in Hlt.
      exists PARTIALLY_PAID. split; [reflexivity |]. split; [auto |].
      split; [split; intros Hcase; congruence |].
      split; [tauto |]. split; [intros Hcase; congruence |].
      intros [_ Hle]. exfalso. apply (Qlt_not_le _ _ Hlt Hle).
    + assert (Hge : (PyDecimal.value (get_total db quote) <= inject_Z amount_paid)%Q).
      { apply Qnot_lt_le. intros Hlt'. apply paid_below_total in Hlt'. congruence. }
      exists PAID_IN_FULL. split; [reflexivity |]. split; [auto |].
      split; [split; intros Hcase; congruence |].
      split; [| tauto]. split; [intros Hcase; congruence |].
      intros [_ Hlt']. exfalso. apply (Qlt_not_le _ _ Hlt' Hge).
Qed.

Lemma payment_status_by_cases_witness :
  Quote.get_amount_paid paid_db plain_quote = Ok 50
  /\ payment_status paid_db plain_quote = Ok PARTIALLY_PAID.
Proof.
  assert (Hpaid : Quote.get_amount_paid paid_db plain_quote = Ok 50)
    by (vm_compute; reflexivity).
  split; [exact Hpaid |].
  destruct (payment_status_by_cases paid_db plain_quote 50 Hpaid)
    as (status & Hstatus & _ & _ & Hpartial & _).
  rewrite Hstatus. f_equal. apply Hpartial.
  split; [lia | vm_compute; reflexivity].
Defined.

(** C1 as stated fails where the amount paid and the total are both zero: a
    quote without line items and without payments has [amount_paid >= total]
    and [amount_paid = total], and its status is "Not Paid", not
    "Paid in Full". *)
Lemma payment_status_zero_total_counterexample :
  Quote.get_amount_paid empty_db plain_quote = Ok 0
  /\ get_total empty_db plain_quote = PyDecimal.of_int 0
  /\ (PyDecimal.value (get_total empty_db plain_quote) <= inject_Z 0)%Q
  /\ payment_status empty_db plain_quote = Ok NOT_PAID
  /\ payment_status empty_db plain_quote <> Ok PAID_IN_FULL.
Proof.
  split; [vm_compute; reflexivity |].
  split; [vm_compute; reflexivity |].
  split; [vm_compute; discriminate |].
  split; [vm_compute; reflexivity |].
  vm_compute. discriminate.
Qed.

(** ** Delegation to the group quote *)

Lemma line_items_all_app (table rows : list (Z * LineItem)) (owner : Z) :
  line_items_all (table ++ rows) owner
  = (line_items_all table owner ++ line_items_all rows owner)%list.
Proof. unfold line_items_all. rewrite filter_app, map_app. reflexivity. Qed.

Lemma line_items_all_deleted (table : list (Z * LineItem)) (owner : Z) :
  line_items_all (filter (fun row => fst row <> owner) table) owner = [].
Proof.
  unfold line_items_all. induction table as [| row table IH]; [reflexivity |].
  rewrite (filter_cons (fun row => fst row <> owner)).
  destruct (decide (fst row <> owner)) as [Hne | Heq]; [| exact IH].
  rewrite filter_cons. destruct (decide (fst row = owner)); [contradiction | exact IH].
Qed.

Lemma line_items_exists_false (table : list (Z * LineItem)) (owner : Z) :
  line_items_exists table owner = false <-> line_items_all table owner = [].
Proof.
  unfold line_items_exists. destruct (line_items_all table owner); split; congruence.
Qed.

(** With a group quote, the quote delegates exactly when it has no line item
    of its own in the database it is asked in. *)
Lemma use_group_quote_iff (db : DB) (quote : Quote.t) (group_quote : GroupQuote.t) :
  Quote.group_quote quote = Some group_quote ->
  Quote.use_group_quote db quote = true
  <-> line_items_all (quote_line_items db) (Quote.id quote) = [].
Proof.
  intros Hgroup. unfold Quote.use_group_quote. rewrite Hgroup.
  rewrite negb_true_iff. apply line_items_exists_false.
Qed.

Lemma delegated (db : DB) (quote : Quote.t) (group_quote : GroupQuote.t) :
  Quote.group_quote quote = Some group_quote ->
  line_items_all (quote_line_items db) (Quote.id quote) = [] ->
  Quote.get_notes db quote = GroupQuote.get_notes db group_quote
  /\ Quote.get_line_items db quote = GroupQuote.get_line_items db group_quote.
Proof.
  intros Hgroup Hnone.
  apply (use_group_quote_iff db quote group_quote Hgroup) in Hnone.
  unfold Quote.get_notes, Quote.get_line_items. rewrite Hnone, Hgroup. auto.
Qed.

Lemma not_delegated (db : DB) (quote : Quote.t) :
  line_items_all (quote_line_items db) (Quote.id quote) <> [] ->
  Quote.get_notes db quote = Quote.notes quote
  /\ Quote.get_line_items db quote = line_items_all (quote_line_items db) (Quote.id quote).
Proof.
  intros Hsome.
  assert (Huse : Quote.use_group_quote db quote = false).
  { unfold Quote.use_group_quote. destruct (Quote.group_quote quote); [| reflexivity].
    apply negb_false_iff. unfold line_items_exists.
    destruct (line_items_all (quote_line_items db) (Quote.id quote)); congruence. }
  unfold Quote.get_notes, Quote.get_line_items. rewrite Huse. auto.
Qed.

(** C2, as the code has it.  For a quote with a group quote: with no line
    item of its own, its notes and line items are the group quote's; while it
    has a line item of its own (as right after one is added), they are its
    own; and once its own line items are removed again, they are the group
    quote's again. *)
Theorem group_quote_delegation (db : DB) (quote : Quote.t) (group_quote : GroupQuote.t)
    (item : LineItem) :
  Quote.group_quote quote = Some group_quote ->
  (line_items_all (quote_line_items db) (Quote.id quote) = [] ->
   Quote.get_notes db quote = GroupQuote.get_notes db group_quote
   /\ Quote.get_line_items db quote = GroupQuote.get_line_items db group_quote)
  /\ (line_items_all (quote_line_items db) (Quote.id quote) <> [] ->
      Quote.get_notes db quote = Quote.notes quote
      /\ Quote.get_line_items db quote
         = line_items_all (quote_line_items db) (Quote.id quote))
  /\ (Quote.get_notes (add_line_item db quote item) quote = Quote.notes quote
      /\ Quote.get_line_items (add_line_item db quote item) quote
         = (line_items_all (quote_line_items db) (Quote.id quote) ++ [item])%list)
  /\ (Quote.get_notes (delete_line_items (add_line_item db quote item) quote) quote
      = GroupQuote.get_notes db group_quote
      /\ Quote.get_line_items (delete_line_items (add_line_item db quote item) quote) quote
         = GroupQuote.get_line_items db group_quote).
Proof.
  intros Hgroup.
  assert (Hadded : line_items_all (quote_line_items (add_line_item db quote item))
                                  (Quote.id quote)
                   = (line_items_all (quote_line_items db) (Quote.id quote) ++ [item])%list).
  { unfold add_line_item. cbn [quote_line_items with_quote_line_items].
    rewrite line_items_all_app. f_equal.
    unfold line_items_all. rewrite filter_cons. cbn [fst].
    destruct (decide (Quote.id quote = Quote.id quote)); [reflexivity | contradiction]. }
  split; [apply (delegated db quote group_quote Hgroup) |].
  split; [apply not_delegated |].
  split.
  - rewrite <- Hadded. apply not_delegated. rewrite Hadded.
    intros Hnil. apply app_eq_nil in Hnil. destruct Hnil as [_ Hnil]. discriminate Hnil.
  - apply (delegated (delete_line_items (add_line_item db quote item) quote)
                     quote group_quote Hgroup).
    apply line_items_all_deleted.
Qed.

Lemma group_quote_delegation_witness :
  Quote.get_notes group_db sample_quote = "group notes"
  /\ Quote.get_line_items group_db sample_quote = [gadget].
Proof.
  destruct (group_quote_delegation group_db sample_quote sample_group_quote widget eq_refl)
    as (Hempty & _).
  destruct Hempty as [Hnotes Hitems]; [reflexivity |].
  rewrite Hnotes, Hitems. split; reflexivity.
Defined.

(** C2 as stated fails on its last part: after a line item of its own was
    added to quote 42 and removed again, the quote reads the group quote's
    notes and line items again. *)
Lemma delegation_resumes_counterexample :
  Quote.group_quote sample_quote = Some sample_group_quote
  /\ Quote.get_notes item_added_db sample_quote = "own notes"
  /\ Quote.get_line_items item_added_db sample_quote = [widget]
  /\ line_items_all (quote_line_items item_removed_db) (Quote.id sample_quote) = []
  /\ Quote.get_notes item_removed_db sample_quote = "group notes"
  /\ Quote.get_notes item_removed_db sample_quote <> Quote.notes sample_quote
  /\ Quote.get_line_items item_removed_db sample_quote = [gadget].
Proof.
  repeat split; try (vm_compute; reflexivity). vm_compute. discriminate.
Qed.

(** ** The stored payment list reads back as written *)

Lemma append_cons (x : ascii) (a b : string) : String x a +:+ b = String x (a +:+ b).
Proof. reflexivity. Qed.

Lemma append_assoc (a b c : string) : (a +:+ b) +:+ c = a +:+ (b +:+ c).
Proof.
  induction a as [| x a IH]; [reflexivity |].
  rewrite !append_cons, IH. reflexivity.
Qed.

(** Printed positive numbers have no leading zero. *)
Lemma to_uint_head (p : positive) :
  Pos.to_uint p <> Nil /\ forall d, Pos.to_uint p <> D0 d.
Proof.
  split; [apply DecimalPos.Unsigned.to_uint_nonnil |].
  intros d Hd.
  assert (Hnorm : unorm (Pos.to_uint p) = Pos.to_uint p).
  { rewrite <- (DecimalPos.Unsigned.to_of (Pos.to_uint p)).
    rewrite DecimalPos.Unsigned.of_to. reflexivity. }
  assert (Hcases : nzhead (Pos.to_uint p) = Nil
                   \/ unorm (Pos.to_uint p) = nzhead (Pos.to_uint p)).
  { destruct (nzhead (Pos.to_uint p)) eqn:Hhead; [left; reflexivity | ..];
      right; rewrite <- Hhead; apply DecimalFacts.unorm_nzhead; rewrite Hhead; discriminate. }
  destruct Hcases as [Hhead | Hhead].
  - apply (DecimalPos.Unsigned.to_uint_nonzero p).
    rewrite <- Hnorm. apply DecimalFacts.unorm_0. exact Hhead.
  - rewrite Hnorm in Hhead. apply (DecimalFacts.nzhead_nonzero (Pos.to_uint p) d).
    rewrite <- Hhead. exact Hd.
Qed.

(** Inside a number, further digits are collected. *)
Lemma scan_digits (negative : bool) (acc : list Z) (rest : string) (d ds : uint) :
  ds <> Nil -> ds <> D0 Nil ->
  json_scan (JNumber negative ds) acc (NilEmpty.string_of_uint d +:+ rest)
  = json_scan (JNumber negative (revapp d ds)) acc rest.
Proof.
  revert ds. induction d as [| d IH | d IH | d IH | d IH | d IH | d IH | d IH | d IH | d IH | d IH];
    intros ds Hnil Hzero; [reflexivity | ..];
    (cbn [NilEmpty.string_of_uint]; rewrite append_cons;
     cbn [json_scan json_step uint_of_char revapp];
     destruct ds as [| ds' | ds' | ds' | ds' | ds' | ds' | ds' | ds' | ds' | ds'];
     [contradiction | destruct ds'; [contradiction | ..] | ..];
     apply IH; congruence).
Qed.

(** A comma or a closing bracket ends a number. *)
Lemma scan_number_end (negative : bool) (ds : uint) (acc : list Z) (c : ascii)
    (rest : string) :
  c = ","%char \/ c = "]"%char ->
  json_scan (JNumber negative ds) acc (String c rest)
  = match json_after (json_number negative ds :: acc) c with
    | Some (st, acc') => json_scan st acc' rest
    | None => None
    end.
Proof. intros [-> | ->]; reflexivity. Qed.

Lemma json_number_rev (negative : bool) (d : uint) :
  json_number negative (Decimal.rev d) = Z.of_int (if negative then Neg d else Pos d).
Proof. unfold json_number. rewrite DecimalFacts.rev_rev. reflexivity. Qed.

Ltac fold_rev :=
  match goal with
  | |- context [json_number _ (revapp ?d (?digit Nil))] =>
      change (revapp d (digit Nil)) with (Decimal.rev (digit d))
  end.

(** The digits of a printed number, read after its first digit was taken. *)
Lemma scan_tail (negative : bool) (acc : list Z) (c : ascii) (rest : string)
    (first d : uint) :
  first <> Nil -> first <> D0 Nil ->
  c = ","%char \/ c = "]"%char ->
  json_scan (JNumber negative first) acc (NilEmpty.string_of_uint d +:+ String c rest)
  = match json_after (json_number negative (revapp d first) :: acc) c with
    | Some (st, acc') => json_scan st acc' rest
    | None => None
    end.
Proof.
  intros Hnil Hzero Hc. rewrite scan_digits by assumption.
  apply scan_number_end. exact Hc.
Qed.

(** A printed integer followed by a comma or a closing bracket is read back
    where a value may start. *)
Lemma scan_str (st : json_state) (acc : list Z) (z : Z) (c : ascii) (rest : string) :
  st = JOpen \/ st = JComma ->
  c = ","%char \/ c = "]"%char ->
  json_scan st acc (str z +:+ String c rest)
  = match json_after (z :: acc) c with
    | Some (st', acc') => json_scan st' acc' rest
    | None => None
    end.
Proof.
  intros Hst Hc. unfold str. destruct z as [| p | p].
  - destruct Hst as [-> | ->]; destruct Hc as [-> | ->]; reflexivity.
  - cbn [Z.to_int NilZero.string_of_int].
    destruct (to_uint_head p) as [Hnil Hhead].
    rewrite <- (DecimalZ.of_to (Z.pos p)) at 1. cbn [Z.to_int].
    destruct (Pos.to_uint p) as [| d | d | d | d | d | d | d | d | d | d];
      [contradiction | exfalso; apply (Hhead d); reflexivity | ..];
      cbn [NilZero.string_of_uint NilEmpty.string_of_uint]; rewrite append_cons;
      (destruct Hst as [-> | ->];
       cbn [json_scan json_step json_value json_whitespace Ascii.eqb Bool.eqb orb
            uint_of_char];
       rewrite scan_tail by (assumption || discriminate);
       cbn [revapp]; fold_rev; rewrite json_number_rev; reflexivity).
  - cbn [Z.to_int NilZero.string_of_int].
    destruct (to_uint_head p) as [Hnil Hhead].
    rewrite <- (DecimalZ.of_to (Z.neg p)) at 1. cbn [Z.to_int].
    destruct (Pos.to_uint p) as [| d | d | d | d | d | d | d | d | d | d];
      [contradiction | exfalso; apply (Hhead d); reflexivity | ..];
      cbn [NilZero.string_of_uint NilEmpty.string_of_uint]; rewrite !append_cons;
      (destruct Hst as [-> | ->];
       cbn [json_scan json_step json_value json_whitespace Ascii.eqb Bool.eqb orb
            uint_of_char];
       rewrite scan_tail by (assumption || discriminate);
       cbn [revapp]; fold_rev; rewrite json_number_rev; reflexivity).
Qed.

(** The items of a printed list, from the first one to the closing bracket. *)
Lemma scan_items (items : list Z) :
  forall (item : Z) (st : json_state) (acc : list Z),
    st = JOpen \/ st = JComma ->
    json_scan st acc (join_comma (map str (item :: items)) +:+ "]")
    = Some (List.rev acc ++ item :: items)%list.
Proof.
  induction items as [| next items IH]; intros item st acc Hst.
  - cbn [map join_comma]. rewrite scan_str by auto.
    cbn [json_after json_whitespace Ascii.eqb Bool.eqb orb json_scan List.rev].
    reflexivity.
  - change (join_comma (map str (item :: next :: items)))
      with (str item +:+ ", " +:+ join_comma (map str (next :: items))).
    rewrite !append_assoc. rewrite !append_cons.
    rewrite scan_str by auto.
    cbn [json_after json_whitespace Ascii.eqb Bool.eqb orb json_scan json_step].
    change ("" +:+ join_comma (map str (next :: items)) +:+ "]")
      with (join_comma (map str (next :: items)) +:+ "]").
    rewrite IH by auto. cbn [List.rev]. rewrite <- app_assoc. reflexivity.
Qed.

(** [json.loads(json.dumps(payments)) == payments] *)
Lemma json_loads_dumps (payments : list Z) : json_loads (json_dumps payments) = Ok payments.
Proof.
  unfold json_loads, json_dumps. rewrite append_cons.
  cbn [json_scan json_step json_whitespace Ascii.eqb Bool.eqb orb].
  change ("" +:+ join_comma (map str payments) +:+ "]")
    with (join_comma (map str payments) +:+ "]").
  destruct payments as [| item items]; [reflexivity |].
  rewrite scan_items by auto. reflexivity.
Qed.

Lemma json_dumps_not_empty (payments : list Z) : json_dumps payments <> "".
Proof. unfold json_dumps. rewrite append_cons. discriminate. Qed.

(** ** Payments *)

Lemma get_attribute_set (db : DB) (customer : Z) (key value : string) :
  get_attribute (set_attribute db customer key value) customer key = Some value.
Proof. unfold get_attribute, set_attribute. cbn. apply lookup_insert_eq. Qed.

(** Reading the payments right after a list was stored gives that list. *)
Lemma get_payments_stored (db : DB) (quote : Quote.t) (payments : list Z) :
  Quote.get_payments
    (set_attribute db (Quote.customer quote) (Quote.payments_key quote)
                   (json_dumps payments))
    quote
  = Ok payments.
Proof.
  unfold Quote.get_payments. rewrite get_attribute_set.
  pose proof (json_dumps_not_empty payments) as Hne.
  destruct (json_dumps payments) eqn:Htext; [contradiction |].
  rewrite <- Htext. apply json_loads_dumps.
Qed.

Lemma approve_and_pay_stores (db : DB) (quote : Quote.t) (payments : list Z) (ref : Z) :
  Quote.get_payments db quote = Ok payments ->
  Quote.approve_and_pay db quote ref
  = Ok (set_attribute db (Quote.customer quote) (Quote.payments_key quote)
                      (json_dumps (payments ++ [ref])%list)).
Proof. intros Hbefore. unfold Quote.approve_and_pay. rewrite Hbefore. reflexivity. Qed.

(** Recording several payments, one [approve_and_pay] after the other. *)
Lemma approve_and_pay_each (refs : list Z) :
  forall (db : DB) (quote : Quote.t) (payments : list Z),
    Quote.get_payments db quote = Ok payments ->
    exists db',
      for_each (fun db ref => Quote.approve_and_pay db quote ref) refs db = Ok db'
      /\ Quote.get_payments db' quote = Ok (payments ++ refs)%list.
Proof.
  induction refs as [| ref refs IH]; intros db quote payments Hbefore.
  - exists db. rewrite app_nil_r. auto.
  - cbn [for_each]. rewrite (approve_and_pay_stores _ _ _ _ Hbefore).
    cbn [mbind result_bind].
    destruct (IH _ quote _ (get_payments_stored db quote (payments ++ [ref])%list))
      as (db' & Hrun & Hafter).
    exists db'. rewrite <- app_assoc in Hafter. auto.
Qed.

(** C4.  When the payments of a quote can be read, [approve_and_pay] with a
    reference succeeds, and [get_payments] then returns the previous list
    with the reference appended at the end.  Recording further references
    keeps appending: earlier references stay in the list, in their order. *)
Theorem approve_and_pay_appends (db : DB) (quote : Quote.t) (payments : list Z) (ref : Z)
    (refs : list Z) :
  Quote.get_payments db quote = Ok payments ->
  (exists db',
      Quote.approve_and_pay db quote ref = Ok db'
      /\ Quote.get_payments db' quote = Ok (payments ++ [ref])%list)
  /\ (exists db',
         for_each (fun db ref => Quote.approve_and_pay db quote ref) (ref :: refs) db = Ok db'
         /\ Quote.get_payments db' quote = Ok (payments ++ ref :: refs)%list).
Proof.
  intros Hbefore. split.
  - rewrite (approve_and_pay_stores _ _ _ _ Hbefore).
    eexists. split; [reflexivity |]. apply get_payments_stored.
  - apply approve_and_pay_each. exact Hbefore.
Qed.

Lemma approve_and_pay_appends_witness :
  Quote.get_payments paid_db plain_quote = Ok [9]
  /\ exists db',
      Quote.approve_and_pay paid_db plain_quote 11 = Ok db'
      /\ Quote.get_payments db' plain_quote = Ok [9; 11].
Proof.
  assert (Hbefore : Quote.get_payments paid_db plain_quote = Ok [9])
    by (vm_compute; reflexivity).
  split; [exact Hbefore |].
  exact (proj1 (approve_and_pay_appends paid_db plain_quote [9] 11 [] Hbefore)).
Defined.

(** C9.  When the customer's attributes hold nothing under the quote's key,
    or hold the empty string, [get_payments] returns the empty list. *)
Theorem get_payments_no_entry (db : DB) (quote : Quote.t) :
  get_attribute db (Quote.customer quote) (Quote.payments_key quote) = None
  \/ get_attribute db (Quote.customer quote) (Quote.payments_key quote) = Some "" ->
  Quote.get_payments db quote = Ok [].
Proof.
  intros [Habsent | Hempty]; unfold Quote.get_payments.
  - rewrite Habsent. reflexivity.
  - rewrite Hempty. reflexivity.
Qed.

Lemma get_payments_no_entry_witness :
  Quote.get_payments empty_db plain_quote = Ok []
  /\ Quote.get_payments blank_db plain_quote = Ok [].
Proof.
  split; apply get_payments_no_entry; [left | right]; vm_compute; reflexivity.
Defined.

(** ** The amount paid *)

Lemma sum_paid_cons (charge : Charge) (charges : list Charge) :
  sum_paid (charge :: charges)
  = (amount charge / 100 - amount_refunded charge / 100) + sum_paid charges.
Proof. reflexivity. Qed.

Lemma sum_paid_app (a b : list Charge) : sum_paid (a ++ b) = sum_paid a + sum_paid b.
Proof.
  induction a as [| charge a IH]; [reflexivity |].
  rewrite <- app_comm_cons, !sum_paid_cons, IH. lia.
Qed.

(** The inner loops: over the charges of one payment-provider customer. *)
Lemma collect_charges (charges all_charges : list Charge) :
  fold_left (fun all_charges charge => (all_charges ++ [charge])%list) charges all_charges
  = (all_charges ++ charges)%list.
Proof.
  revert all_charges. induction charges as [| charge charges IH]; intros all_charges; cbn.
  - rewrite app_nil_r. reflexivity.
  - rewrite IH, <- app_assoc. reflexivity.
Qed.

Lemma add_charges (charges : list Charge) (subtotal : Z) :
  fold_left (fun subtotal charge =>
               subtotal + (amount charge / 100 - amount_refunded charge / 100))
            charges subtotal
  = subtotal + sum_paid charges.
Proof.
  revert subtotal. induction charges as [| charge charges IH]; intros subtotal.
  - cbn. lia.
  - cbn [fold_left]. rewrite IH, sum_paid_cons. lia.
Qed.

Section OuterLoops.

Variable db : DB.

Lemma known_customer (ref : Z) (charges : list Charge) :
  stripe_customers db !! ref = Some charges ->
  stripe_customer_get_charges db ref = Ok charges.
Proof. intros Href. unfold stripe_customer_get_charges. rewrite Href. reflexivity. Qed.

(** The outer loops: over the recorded payment references. *)
Lemma get_charges_loop (payments : list Z) (charges_of : list (list Charge)) :
  Forall2 (fun ref charges => stripe_customers db !! ref = Some charges)
          payments charges_of ->
  forall all_charges,
    for_each (fun all_charges stripe_customer_id =>
                charges ← stripe_customer_get_charges db stripe_customer_id;
                Ok (fold_left (fun all_charges charge => (all_charges ++ [charge])%list)
                              charges all_charges))
             payments all_charges
    = Ok (all_charges ++ concat charges_of)%list.
Proof.
  induction 1 as [| ref charges payments charges_of Href _ IH]; intros all_charges.
  - cbn. rewrite app_nil_r. reflexivity.
  - cbn [for_each]. rewrite (known_customer _ _ Href).
    cbn [mbind result_bind]. rewrite collect_charges, IH.
    cbn [concat]. rewrite app_assoc. reflexivity.
Qed.

Lemma get_amount_paid_loop (payments : list Z) (charges_of : list (list Charge)) :
  Forall2 (fun ref charges => stripe_customers db !! ref = Some charges)
          payments charges_of ->
  forall subtotal,
    for_each (fun subtotal stripe_customer_id =>
                charges ← stripe_customer_get_charges db stripe_customer_id;
                Ok (fold_left (fun subtotal charge =>
                                 subtotal
                                 + (amount charge / 100 - amount_refunded charge / 100))
                              charges subtotal))
             payments subtotal
    = Ok (subtotal + sum_paid (concat charges_of)).
Proof.
  induction 1 as [| ref charges payments charges_of Href _ IH]; intros subtotal.
  - cbn. f_equal. lia.
  - cbn [for_each]. rewrite (known_customer _ _ Href).
    cbn [mbind result_bind]. rewrite add_charges, IH.
    cbn [concat]. rewrite sum_paid_app. f_equal. lia.
Qed.

End OuterLoops.





(** ** Invoice labels *)

Lemma enum_call_member (members : list EnumMember) (value : Z) :
  In value (map member_value members) ->
  exists m, In m members /\ member_value m = value /\ enum_call members value = Ok m.
Proof.
  intros Hin. unfold enum_call.
  destruct (List.find (fun m => member_value m =? value) members) as [m |] eqn:Hfind.
  - apply List.find_some in Hfind. destruct Hfind as [Hm Hvalue].
    exists m. apply Z.eqb_eq in Hvalue. auto.
  - exfalso. apply in_map_iff in Hin. destruct Hin as (m & Hvalue & Hm).
    pose proof (List.find_none _ _ Hfind m Hm) as Hno. cbn in Hno.
    apply Z.eqb_neq in Hno. contradiction.
Qed.

Lemma enum_call_invalid (members : list EnumMember) (value : Z) :
  ~ In value (map member_value members) ->
  enum_call members value = Raise ValueError.
Proof.
  intros Hout. unfold enum_call.
  destruct (List.find (fun m => member_value m =? value) members) as [m |] eqn:Hfind;
    [| reflexivity].
  exfalso. apply Hout. apply List.find_some in Hfind. destruct Hfind as [Hm Hvalue].
  apply Z.eqb_eq in Hvalue. apply in_map_iff. exists m. auto.
Qed.

(** C7.  For every invoice and whatever the members of the two enumerations
    are: when the stored [invoice_type] is the value of a member, [get_type]
    returns the label of a member with that value, and when it is the value
    of no member, [get_type] raises [ValueError]; the same holds for
    [payment_terms] and [get_payment_terms].  The exception is the method's
    outcome: nothing catches it. *)
Theorem invoice_enum_lookup (InvoiceType InvoicePaymentTerm : list EnumMember)
    (enum_to_str : EnumMember -> string) (invoice : Invoice.t) :
  ((In (Invoice.invoice_type invoice) (map member_value InvoiceType) ->
    exists m, In m InvoiceType
              /\ member_value m = Invoice.invoice_type invoice
              /\ Invoice.get_type InvoiceType enum_to_str invoice = Ok (enum_to_str m))
   /\ (~ In (Invoice.invoice_type invoice) (map member_value InvoiceType) ->
       Invoice.get_type InvoiceType enum_to_str invoice = Raise ValueError))
  /\ ((In (Invoice.payment_terms invoice) (map member_value InvoicePaymentTerm) ->
       exists m, In m InvoicePaymentTerm
                 /\ member_value m = Invoice.payment_terms invoice
                 /\ Invoice.get_payment_terms InvoicePaymentTerm enum_to_str invoice
                    = Ok (enum_to_str m))
      /\ (~ In (Invoice.payment_terms invoice) (map member_value InvoicePaymentTerm) ->
          Invoice.get_payment_terms InvoicePaymentTerm enum_to_str invoice
          = Raise ValueError)).
Proof.
  unfold Invoice.get_type, Invoice.get_invoice_type, Invoice.get_payment_terms.
  split; split.
  - intros Hin. destruct (enum_call_member _ _ Hin) as (m & Hm & Hvalue & Hcall).
    exists m. rewrite Hcall. auto.
  - intros Hout. rewrite (enum_call_invalid _ _ Hout). reflexivity.
  - intros Hin. destruct (enum_call_member _ _ Hin) as (m & Hm & Hvalue & Hcall).
    exists m. rewrite Hcall. auto.
  - intros Hout. rewrite (enum_call_invalid _ _ Hout). reflexivity.
Qed.

Lemma invoice_enum_lookup_witness :
  (exists m, In m sample_invoice_types
             /\ member_value m = 2
             /\ Invoice.get_type sample_invoice_types member_name sample_invoice
                = Ok (member_name m))
  /\ Invoice.get_type sample_invoice_types member_name stale_invoice = Raise ValueError
  /\ Invoice.get_payment_terms sample_payment_terms member_name stale_invoice
     = Raise ValueError.
Proof.
  split; [| split].
  - apply (proj1 (proj1 (invoice_enum_lookup sample_invoice_types sample_payment_terms
                                             member_name sample_invoice))).
    cbn. auto.
  - apply (proj2 (proj1 (invoice_enum_lookup sample_invoice_types sample_payment_terms
                                             member_name stale_invoice))).
    cbn. intros [H | [H | []]]; discriminate H.
  - apply (proj2 (proj2 (invoice_enum_lookup sample_invoice_types sample_payment_terms
                                             member_name stale_invoice))).
    cbn. intros [H | [H | [H | []]]]; discriminate H.
Defined.

(** ** Script fragments of a template *)

Section ScriptFragments.

Variable re_match : string -> string -> result (option MatchObject).
Variable Template : Type.
Variable get_template : string -> result Template.

Lemma get_javascripts_found (name prefix candidate : string) (t : Template) :
  js_fragment_filename re_match name prefix = Ok candidate ->
  get_template candidate = Ok t ->
  get_javascripts re_match Template get_template name prefix = Ok [candidate].
Proof.
  intros Hcandidate Hfound. unfold get_javascripts. rewrite Hcandidate.
  cbn [mbind result_bind]. unfold try_get_template. rewrite Hfound. reflexivity.
Qed.

Lemma get_javascripts_missing (name prefix candidate : string) :
  js_fragment_filename re_match name prefix = Ok candidate ->
  get_template candidate = Raise TemplateDoesNotExist ->
  get_javascripts re_match Template get_template name prefix = Ok [].
Proof.
  intros Hcandidate Hmissing. unfold get_javascripts. rewrite Hcandidate.
  cbn [mbind result_bind]. unfold try_get_template. rewrite Hmissing. reflexivity.
Qed.

(** What a returned list can be. *)
Lemma get_javascripts_returned (name prefix : string) (javascripts : list string) :
  get_javascripts re_match Template get_template name prefix = Ok javascripts ->
  exists candidate,
    js_fragment_filename re_match name prefix = Ok candidate
    /\ ((javascripts = [candidate] /\ exists t, get_template candidate = Ok t)
        \/ (javascripts = [] /\ get_template candidate = Raise TemplateDoesNotExist)).
Proof.
  unfold get_javascripts.
  destruct (js_fragment_filename re_match name prefix) as [candidate | e];
    cbn [mbind result_bind]; [| discriminate].
  unfold try_get_template.
  destruct (get_template candidate) as [t | []] eqn:Hloader;
    cbn [mbind result_bind]; intros Hresult; try discriminate Hresult;
    injection Hresult as <-; exists candidate; split; try reflexivity.
  - left. split; [reflexivity | exists t; assumption || reflexivity].
  - right. split; assumption || reflexivity.
Qed.

(** What a raised exception can be. *)
Lemma js_fragment_filename_raised (name prefix : string) (e : exn) :
  js_fragment_filename re_match name prefix = Raise e ->
  re_match (prefix +:+ "admintools/(.*)") name = Raise e
  \/ (re_match (prefix +:+ "admintools/(.*)") name = Ok None
      /\ re_match (prefix +:+ "(.*)") name = Raise e).
Proof.
  unfold js_fragment_filename.
  destruct (re_match (prefix +:+ "admintools/(.*)") name) as [[m |] | e1];
    cbn [mbind result_bind]; [discriminate | | intros [= ->]; auto].
  destruct (re_match (prefix +:+ "(.*)") name) as [[m |] | e2];
    cbn [mbind result_bind]; [discriminate | discriminate | intros [= ->]; auto].
Qed.

Lemma get_javascripts_raised (name prefix : string) (e : exn) :
  get_javascripts re_match Template get_template name prefix = Raise e ->
  js_fragment_filename re_match name prefix = Raise e
  \/ exists candidate,
      js_fragment_filename re_match name prefix = Ok candidate
      /\ get_template candidate = Raise e
      /\ e <> TemplateDoesNotExist.
Proof.
  unfold get_javascripts.
  destruct (js_fragment_filename re_match name prefix) as [candidate | e1];
    cbn [mbind result_bind]; [| intros [= ->]; auto].
  unfold try_get_template. intros Hraised. right. exists candidate.
  split; [reflexivity |].
  destruct (get_template candidate) as [t | []];
    cbn [mbind result_bind] in Hraised; try discriminate Hraised;
    injection Hraised as <-; split; (reflexivity || discriminate).
Qed.

End ScriptFragments.

(** C6.  Let [re.match] behave on five literal patterns as Python's does.
    With an empty prefix, [get_javascripts "page.html"] is the one-element
    list of ["fragments/js/page.html"] when the loader finds that template
    and the empty list when the loader raises [TemplateDoesNotExist].  With
    the prefix ["admin/"], the candidate for ["admin/tools.html"] is
    ["admin/fragments/js/tools.html"], the admin pattern not matching that
    name; the candidate of a name is
    ["admin/admintools/fragments/js/tools.html"] only if the admin pattern
    matches the name, as it does for ["admin/admintools/tools.html"].  A
    missing template always gives the empty list, not an exception. *)
Theorem get_javascripts_examples
    (re_match : string -> string -> result (option MatchObject))
    (Template : Type) (get_template : string -> result Template) :
  re_match "admintools/(.*)" "page.html" = Ok None ->
  re_match "(.*)" "page.html" = Ok (Some {| group1 := Some "page.html" |}) ->
  re_match "admin/admintools/(.*)" "admin/tools.html" = Ok None ->
  re_match "admin/(.*)" "admin/tools.html" = Ok (Some {| group1 := Some "tools.html" |}) ->
  re_match "admin/admintools/(.*)" "admin/admintools/tools.html"
  = Ok (Some {| group1 := Some "tools.html" |}) ->
  ((forall t, get_template "fragments/js/page.html" = Ok t ->
              get_javascripts re_match Template get_template "page.html" ""
              = Ok ["fragments/js/page.html"])
   /\ (get_template "fragments/js/page.html" = Raise TemplateDoesNotExist ->
       get_javascripts re_match Template get_template "page.html" "" = Ok []))
  /\ (js_fragment_filename re_match "admin/tools.html" "admin/"
      = Ok "admin/fragments/js/tools.html"
      /\ js_fragment_filename re_match "admin/admintools/tools.html" "admin/"
         = Ok "admin/admintools/fragments/js/tools.html"
      /\ (forall name,
             js_fragment_filename re_match name "admin/"
             = Ok "admin/admintools/fragments/js/tools.html" ->
             exists m, re_match "admin/admintools/(.*)" name = Ok (Some m)
                       /\ format_s (group1 m) = "tools.html"))
  /\ (forall name prefix candidate,
         js_fragment_filename re_match name prefix = Ok candidate ->
         get_template candidate = Raise TemplateDoesNotExist ->
         get_javascripts re_match Template get_template name prefix = Ok []).
Proof.
  intros Hpage_admin Hpage Htools_admin Htools Hadmintools.
  assert (Hpage_candidate :
            js_fragment_filename re_match "page.html" "" = Ok "fragments/js/page.html").
  { unfold js_fragment_filename.
    change ("" +:+ "admintools/(.*)") with "admintools/(.*)".
    change ("" +:+ "(.*)") with "(.*)".
    rewrite Hpage_admin. cbn [mbind result_bind]. rewrite Hpage. reflexivity. }
  split; [split | split; [split; [| split] |]].
  - intros t Hfound. apply (get_javascripts_found _ _ _ _ _ _ t Hpage_candidate Hfound).
  - intros Hmissing. apply (get_javascripts_missing _ _ _ _ _ _ Hpage_candidate Hmissing).
  - unfold js_fragment_filename.
    change ("admin/" +:+ "admintools/(.*)") with "admin/admintools/(.*)".
    change ("admin/" +:+ "(.*)") with "admin/(.*)".
    rewrite Htools_admin. cbn [mbind result_bind]. rewrite Htools. reflexivity.
  - unfold js_fragment_filename.
    change ("admin/" +:+ "admintools/(.*)") with "admin/admintools/(.*)".
    rewrite Hadmintools. reflexivity.
  - intros name. unfold js_fragment_filename.
    change ("admin/" +:+ "admintools/(.*)") with "admin/admintools/(.*)".
    change ("admin/" +:+ "(.*)") with "admin/(.*)".
    destruct (re_match "admin/admintools/(.*)" name) as [[m |] | e];
      cbn [mbind result_bind]; [| | discriminate].
    + intros Hcandidate. exists m. split; [reflexivity |].
      injection Hcandidate as Hcandidate. exact Hcandidate.
    + destruct (re_match "admin/(.*)" name) as [[m |] | e];
        cbn [mbind result_bind]; intros Hcandidate; discriminate Hcandidate.
  - intros name prefix candidate. apply get_javascripts_missing.
Qed.

Lemma get_javascripts_examples_witness :
  get_javascripts re_match_literal unit sample_loader "page.html" ""
  = Ok ["fragments/js/page.html"]
  /\ js_fragment_filename re_match_literal "admin/tools.html" "admin/"
     = Ok "admin/fragments/js/tools.html"
  /\ get_javascripts re_match_literal unit sample_loader "admin/tools.html" "admin/" = Ok [].
Proof.
  destruct (get_javascripts_examples re_match_literal unit sample_loader)
    as ((Hfound & _) & (Hcandidate & _) & Hmissing);
    try (vm_compute; reflexivity).
  split; [apply (Hfound tt); vm_compute; reflexivity |].
  split; [exact Hcandidate |].
  apply (Hmissing _ _ _ Hcandidate). vm_compute. reflexivity.
Defined.

(** C10.  For every template name and prefix, and whatever [re.match] and the
    loader do, [get_javascripts] has one of two outcomes.  It returns a list
    that is empty or holds the one candidate path, so a list of at most one
    element: the candidate when the loader finds it, nothing when the loader
    raises [TemplateDoesNotExist].  Or it passes on an exception it does not
    handle: that of [re.match] on one of the two patterns, or that of the
    loader on the candidate.  The loader is asked about the candidate only:
    two loaders that agree on it give the same outcome. *)
Theorem get_javascripts_at_most_one
    (re_match : string -> string -> result (option MatchObject))
    (Template : Type) (get_template : string -> result Template)
    (template_name template_prefix : string) :
  match get_javascripts re_match Template get_template template_name template_prefix with
  | Ok javascripts =>
      (length javascripts <= 1)%nat
      /\ exists candidate,
          js_fragment_filename re_match template_name template_prefix = Ok candidate
          /\ ((javascripts = [candidate] /\ exists t, get_template candidate = Ok t)
              \/ (javascripts = []
                  /\ get_template candidate = Raise TemplateDoesNotExist))
  | Raise e =>
      re_match (template_prefix +:+ "admintools/(.*)") template_name = Raise e
      \/ (re_match (template_prefix +:+ "admintools/(.*)") template_name = Ok None
          /\ re_match (template_prefix +:+ "(.*)") template_name = Raise e)
      \/ (exists candidate,
             js_fragment_filename re_match template_name template_prefix = Ok candidate
             /\ get_template candidate = Raise e
             /\ e <> TemplateDoesNotExist)
  end
  /\ (forall other_loader : string -> result Template,
         (forall candidate,
             js_fragment_filename re_match template_name template_prefix = Ok candidate ->
             other_loader candidate = get_template candidate) ->
         get_javascripts re_match Template other_loader template_name template_prefix
         = get_javascripts re_match Template get_template template_name template_prefix).
Proof.
  split.
  - destruct (get_javascripts re_match Template get_template template_name template_prefix)
      as [javascripts | e] eqn:Houtcome.
    + destruct (get_javascripts_returned _ _ _ _ _ _ Houtcome)
        as (candidate & Hcandidate & Hloader).
      split.
      * destruct Hloader as [[-> _] | [-> _]]; cbn; lia.
      * exists candidate. auto.
    + destruct (get_javascripts_raised _ _ _ _ _ _ Houtcome)
        as [Hpatterns | (candidate & Hcandidate & Hloader & Hother)].
      * destruct (js_fragment_filename_raised _ _ _ _ Hpatterns); auto.
      * right. right. exists candidate. auto.
  - intros other_loader Hagree. unfold get_javascripts.
    destruct (js_fragment_filename re_match template_name template_prefix)
      as [candidate | e]; cbn [mbind result_bind]; [| reflexivity].
    unfold try_get_template. rewrite (Hagree candidate eq_refl). reflexivity.
Qed.

Lemma get_javascripts_at_most_one_witness :
  get_javascripts re_match_literal unit (fun _ => Raise TemplateDoesNotExist) "page.html" ""
  = get_javascripts re_match_literal unit
                    (fun name => if String.eqb name "fragments/js/page.html"
                                 then Raise TemplateDoesNotExist
                                 else Ok tt)
                    "page.html" "".
Proof.
  apply (get_javascripts_at_most_one re_match_literal unit).
  intros candidate Hcandidate. vm_compute in Hcandidate.
  injection Hcandidate as <-. reflexivity.
Defined.

(** * Further properties of the quote and payment code *)

(** ** Payment keys and the frame of [approve_and_pay] *)

Lemma str_injective (a b : Z) : str a = str b -> a = b.
Proof.
  unfold str. intros Hstr.
  assert (Hvalid : forall z, Z.to_int z <> Pos Nil /\ Z.to_int z <> Neg Nil).
  { intros [| p | p]; cbn [Z.to_int]; split; try discriminate;
      intros [= Hnil]; exact (DecimalPos.Unsigned.to_uint_nonnil p Hnil). }
  destruct (Hvalid a) as [Ha1 Ha2]. destruct (Hvalid b) as [Hb1 Hb2].
  pose proof (NilZero.isi _ Ha1 Ha2) as Hparse_a.
  pose proof (NilZero.isi _ Hb1 Hb2) as Hparse_b.
  rewrite Hstr, Hparse_b in Hparse_a. injection Hparse_a as Hint.
  symmetry. apply DecimalZ.to_int_inj. exact Hint.
Qed.

Lemma append_length (a b : string) :
  String.length (a +:+ b) = (String.length a + String.length b)%nat.
Proof.
  induction a as [| c a IH]; [reflexivity |].
  rewrite append_cons. cbn [String.length]. rewrite IH. reflexivity.
Qed.

Lemma append_cancel_r (a b tail : string) : a +:+ tail = b +:+ tail -> a = b.
Proof.
  revert b. induction a as [| c a IH]; intros [| d b] Heq.
  - reflexivity.
  - exfalso. apply (f_equal String.length) in Heq.
    rewrite !append_length in Heq. cbn [String.length] in Heq. lia.
  - exfalso. apply (f_equal String.length) in Heq.
    rewrite !append_length in Heq. cbn [String.length] in Heq. lia.
  - rewrite !append_cons in Heq. injection Heq as -> Heq.
    f_equal. apply IH. exact Heq.
Qed.

Lemma payments_key_injective_id (a b : Quote.t) :
  Quote.payments_key a = Quote.payments_key b -> Quote.id a = Quote.id b.
Proof.
  unfold Quote.payments_key. intros Hkey. rewrite !append_cons in Hkey.
  change ("" +:+ str (Quote.id a) +:+ "_payments")
    with (str (Quote.id a) +:+ "_payments") in Hkey.
  change ("" +:+ str (Quote.id b) +:+ "_payments")
    with (str (Quote.id b) +:+ "_payments") in Hkey.
  injection Hkey as Hkey.
  apply str_injective. apply (append_cancel_r _ _ _ Hkey).
Qed.

(** X1.  Two quotes have the same payments key exactly when they have the
    same id: the key ['quote_%s_payments' % self.id] tells quotes apart. *)
Theorem payments_key_injective (a b : Quote.t) :
  Quote.payments_key a = Quote.payments_key b <-> Quote.id a = Quote.id b.
Proof.
  split.
  - apply payments_key_injective_id.
  - intros Hid. unfold Quote.payments_key. rewrite Hid. reflexivity.
Qed.

Lemma get_attribute_set_other (db : DB) (customer customer' : Z) (key key' value : string) :
  (customer', key') <> (customer, key) ->
  get_attribute (set_attribute db customer key value) customer' key'
  = get_attribute db customer' key'.
Proof.
  intros Hother. unfold get_attribute, set_attribute. cbn.
  apply lookup_insert_ne. congruence.
Qed.



(** ** How the readers of the payment list fail and succeed *)

Section PaymentReaders.

Variable db : DB.

(** Every reference is known, or one is not. *)
Lemma known_or_unknown (payments : list Z) :
  (exists charges_of,
      Forall2 (fun ref charges => stripe_customers db !! ref = Some charges)
              payments charges_of)
  \/ Exists (fun ref => stripe_customers db !! ref = None) payments.
Proof.
  induction payments as [| ref payments [[charges_of Hknown] | Hunknown]].
  - left. exists []. constructor.
  - destruct (stripe_customers db !! ref) as [charges |] eqn:Href.
    + left. exists (charges :: charges_of). constructor; assumption.
    + right. constructor. exact Href.
  - right. apply Exists_cons_tl. exact Hunknown.
Qed.

Lemma unknown_not_known (payments : list Z) (charges_of : list (list Charge)) :
  Forall2 (fun ref charges => stripe_customers db !! ref = Some charges)
          payments charges_of ->
  Exists (fun ref => stripe_customers db !! ref = None) payments ->
  False.
Proof.
  induction 1 as [| ref charges payments charges_of Href _ IH]; intros Hunknown.
  - inversion Hunknown.
  - inversion Hunknown as [? ? Hnone | ? ? Htail]; subst; [congruence | auto].
Qed.

Lemma unknown_customer (ref : Z) :
  stripe_customers db !! ref = None ->
  stripe_customer_get_charges db ref = Raise DoesNotExist.
Proof. intros Href. unfold stripe_customer_get_charges. rewrite Href. reflexivity. Qed.

(** A loop over the references stops with [DoesNotExist] at the first
    unknown one, whatever its body does with the charges. *)
Lemma loop_unknown {S : Type} (step : S -> list Charge -> S) (payments : list Z) :
  Exists (fun ref => stripe_customers db !! ref = None) payments ->
  forall s : S,
    for_each (fun s stripe_customer_id =>
                charges ← stripe_customer_get_charges db stripe_customer_id;
                Ok (step s charges))
             payments s
    = Raise DoesNotExist.
Proof.
  induction payments as [| ref payments IH]; intros Hunknown s.
  - inversion Hunknown.
  - cbn [for_each].
    destruct (stripe_customers db !! ref) as [charges |] eqn:Href.
    + rewrite (known_customer db _ _ Href). cbn [mbind result_bind].
      apply IH. inversion Hunknown as [? ? Hnone | ? ? Htail]; subst;
        [congruence | exact Htail].
    + rewrite (unknown_customer _ Href). reflexivity.
Qed.

End PaymentReaders.

Lemma readers_known (db : DB) (quote : Quote.t) (payments : list Z)
    (charges_of : list (list Charge)) :
  Quote.get_payments db quote = Ok payments ->
  Forall2 (fun ref charges => stripe_customers db !! ref = Some charges)
          payments charges_of ->
  Quote.get_charges db quote = Ok (concat charges_of)
  /\ Quote.get_amount_paid db quote = Ok (sum_paid (concat charges_of)).
Proof.
  intros Hpayments Hknown. split.
  - unfold Quote.get_charges. rewrite Hpayments. cbn [mbind result_bind].
    rewrite (get_charges_loop db _ _ Hknown). reflexivity.
  - unfold Quote.get_amount_paid. rewrite Hpayments. cbn [mbind result_bind].
    rewrite (get_amount_paid_loop db _ _ Hknown). reflexivity.
Qed.

Lemma readers_unknown (db : DB) (quote : Quote.t) (payments : list Z) :
  Quote.get_payments db quote = Ok payments ->
  Exists (fun ref => stripe_customers db !! ref = None) payments ->
  Quote.get_charges db quote = Raise DoesNotExist
  /\ Quote.get_amount_paid db quote = Raise DoesNotExist.
Proof.
  intros Hpayments Hunknown. split.
  - unfold Quote.get_charges. rewrite Hpayments. cbn [mbind result_bind].
    exact (loop_unknown db
             (fun all_charges charges =>
                fold_left (fun all_charges charge => (all_charges ++ [charge])%list)
                          charges all_charges)
             payments Hunknown []).
  - unfold Quote.get_amount_paid. rewrite Hpayments. cbn [mbind result_bind].
    exact (loop_unknown db
             (fun subtotal charges =>
                fold_left (fun subtotal charge =>
                             subtotal
                             + (amount charge / 100 - amount_refunded charge / 100))
                          charges subtotal)
             payments Hunknown 0).
Qed.

Lemma readers_unreadable (db : DB) (quote : Quote.t) (e : exn) :
  Quote.get_payments db quote = Raise e ->
  Quote.get_charges db quote = Raise e /\ Quote.get_amount_paid db quote = Raise e.
Proof.
  intros Hpayments. unfold Quote.get_charges, Quote.get_amount_paid.
  rewrite Hpayments. split; reflexivity.
Qed.

Lemma payment_status_raises (db : DB) (quote : Quote.t) (e : exn) :
  Quote.get_amount_paid db quote = Raise e -> payment_status db quote = Raise e.
Proof. intros Hpaid. unfold payment_status. rewrite Hpaid. reflexivity. Qed.

Lemma payment_status_returns (db : DB) (quote : Quote.t) (amount_paid : Z) :
  Quote.get_amount_paid db quote = Ok amount_paid ->
  exists status, payment_status db quote = Ok status.
Proof. intros Hpaid. rewrite (payment_status_unfold _ _ _ Hpaid). eexists. reflexivity. Qed.

(** The charges listed decide the amount paid. *)
Lemma charges_then_paid (db : DB) (quote : Quote.t) (charges : list Charge) :
  Quote.get_charges db quote = Ok charges ->
  Quote.get_amount_paid db quote = Ok (sum_paid charges).
Proof.
  intros Hcharges.
  destruct (Quote.get_payments db quote) as [payments | e] eqn:Hpayments.
  - destruct (known_or_unknown db payments) as [[charges_of Hknown] | Hunknown].
    + destruct (readers_known _ _ _ _ Hpayments Hknown) as [Hlisted Hpaid].
      rewrite Hlisted in Hcharges. injection Hcharges as <-. exact Hpaid.
    + destruct (readers_unknown _ _ _ Hpayments Hunknown) as [Hraised _]. congruence.
  - destruct (readers_unreadable _ _ _ Hpayments) as [Hraised _]. congruence.
Qed.

(** And an amount paid comes with a list of charges. *)
Lemma paid_then_charges (db : DB) (quote : Quote.t) (amount_paid : Z) :
  Quote.get_amount_paid db quote = Ok amount_paid ->
  exists payments charges_of,
    Quote.get_payments db quote = Ok payments
    /\ Forall2 (fun ref charges => stripe_customers db !! ref = Some charges)
               payments charges_of
    /\ amount_paid = sum_paid (concat charges_of).
Proof.
  intros Hpaid.
  destruct (Quote.get_payments db quote) as [payments | e] eqn:Hpayments.
  - destruct (known_or_unknown db payments) as [[charges_of Hknown] | Hunknown].
    + destruct (readers_known _ _ _ _ Hpayments Hknown) as [_ Hsum].
      exists payments, charges_of. split; [reflexivity |]. split; [exact Hknown |].
      congruence.
    + destruct (readers_unknown _ _ _ Hpayments Hunknown) as [_ Hraised]. congruence.
  - destruct (readers_unreadable _ _ _ Hpayments) as [_ Hraised]. congruence.
Qed.

(** X3.  [get_charges], [get_amount_paid] and [payment_status] succeed and
    fail together.  When [get_payments] raises, each of them raises the same
    exception.  When the payment list can be read and holds a reference that
    is no known payment-provider customer, each raises [DoesNotExist].  When
    every reference is known, each returns, and the amount paid is the sum
    over the charges that [get_charges] lists. *)
Theorem payment_readers_outcome (db : DB) (quote : Quote.t) :
  (forall e,
      Quote.get_payments db quote = Raise e ->
      Quote.get_charges db quote = Raise e
      /\ Quote.get_amount_paid db quote = Raise e
      /\ payment_status db quote = Raise e)
  /\ (forall payments,
         Quote.get_payments db quote = Ok payments ->
         (Exists (fun ref => stripe_customers db !! ref = None) payments ->
          Quote.get_charges db quote = Raise DoesNotExist
          /\ Quote.get_amount_paid db quote = Raise DoesNotExist
          /\ payment_status db quote = Raise DoesNotExist)
         /\ (Forall (fun ref => is_Some (stripe_customers db !! ref)) payments ->
             exists charges status,
               Quote.get_charges db quote = Ok charges
               /\ Quote.get_amount_paid db quote = Ok (sum_paid charges)
               /\ payment_status db quote = Ok status)).
Proof.
  split.
  - intros e Hpayments. destruct (readers_unreadable _ _ _ Hpayments) as [Hcharges Hpaid].
    split; [exact Hcharges |]. split; [exact Hpaid |].
    apply payment_status_raises. exact Hpaid.
  - intros payments Hpayments. split.
    + intros Hunknown.
      destruct (readers_unknown _ _ _ Hpayments Hunknown) as [Hcharges Hpaid].
      split; [exact Hcharges |]. split; [exact Hpaid |].
      apply payment_status_raises. exact Hpaid.
    + intros Hall.
      destruct (known_or_unknown db payments) as [[charges_of Hknown] | Hunknown].
      * destruct (readers_known _ _ _ _ Hpayments Hknown) as [Hcharges Hpaid].
        destruct (payment_status_returns _ _ _ Hpaid) as [status Hstatus].
        exists (concat charges_of), status. auto.
      * exfalso. apply Exists_exists in Hunknown. destruct Hunknown as (ref & Hin & Hnone).
        rewrite Forall_forall in Hall. destruct (Hall ref Hin) as [charges Hsome].
        congruence.
Qed.

Lemma payment_readers_outcome_witness :
  exists charges status,
    Quote.get_charges paid_db plain_quote = Ok charges
    /\ Quote.get_amount_paid paid_db plain_quote = Ok (sum_paid charges)
    /\ payment_status paid_db plain_quote = Ok status.
Proof.
  apply (proj2 (proj2 (payment_readers_outcome paid_db plain_quote) [9] eq_refl)).
  repeat constructor. exists [ {| amount := 5000; amount_refunded := 0 |} ]. reflexivity.
Defined.

(** ** Recording a payment and the amount paid *)

(** What [approve_and_pay] leaves behind. *)
Lemma approved (db : DB) (quote : Quote.t) (payments : list Z) (ref : Z) :
  Quote.get_payments db quote = Ok payments ->
  exists db',
    Quote.approve_and_pay db quote ref = Ok db'
    /\ Quote.get_payments db' quote = Ok (payments ++ [ref])%list
    /\ stripe_customers db' = stripe_customers db
    /\ get_total db' quote = get_total db quote.
Proof.
  intros Hbefore. rewrite (approve_and_pay_stores _ _ _ _ Hbefore).
  eexists. split; [reflexivity |]. split; [apply get_payments_stored |].
  split; reflexivity.
Qed.



(** Recording a known reference adds its charges. *)
Lemma approve_known (db : DB) (quote : Quote.t) (amount_paid ref : Z)
    (charges : list Charge) :
  Quote.get_amount_paid db quote = Ok amount_paid ->
  stripe_customers db !! ref = Some charges ->
  exists db' payments,
    Quote.approve_and_pay db quote ref = Ok db'
    /\ Quote.get_payments db quote = Ok payments
    /\ Quote.get_payments db' quote = Ok (payments ++ [ref])%list
    /\ stripe_customers db' = stripe_customers db
    /\ Quote.get_amount_paid db' quote = Ok (amount_paid + sum_paid charges)
    /\ (forall listed, Quote.get_charges db quote = Ok listed ->
                       Quote.get_charges db' quote = Ok (listed ++ charges)%list)
    /\ get_total db' quote = get_total db quote.
Proof.
  intros Hpaid Href.
  destruct (paid_then_charges _ _ _ Hpaid) as (payments & charges_of & Hpayments & Hknown & ->).
  destruct (approved db quote payments ref Hpayments)
    as (db' & Hdone & Hafter & Hsame & Htotal).
  exists db', payments. split; [exact Hdone |]. split; [exact Hpayments |].
  split; [exact Hafter |]. split; [exact Hsame |].
  assert (Hknown' : Forall2 (fun ref charges => stripe_customers db' !! ref = Some charges)
                            (payments ++ [ref]) (charges_of ++ [charges])).
  { rewrite Hsame. apply Forall2_app; [exact Hknown |]. repeat constructor. exact Href. }
  destruct (readers_known _ _ _ _ Hafter Hknown') as [Hcharges' Hpaid'].
  rewrite concat_app in Hcharges', Hpaid'. cbn [concat] in Hcharges', Hpaid'.
  rewrite app_nil_r in Hcharges', Hpaid'.
  split; [rewrite Hpaid', sum_paid_app; reflexivity |].
  split; [| exact Htotal].
  intros listed Hlisted.
  destruct (readers_known _ _ _ _ Hpayments Hknown) as [Hcharges _].
  rewrite Hcharges in Hlisted. injection Hlisted as <-. exact Hcharges'.
Qed.

(** X5.  After [approve_and_pay] with a known payment-provider customer, the
    amount paid is the amount paid before plus the sum over that customer's
    charges, the charges listed are those listed before followed by that
    customer's, and the total of the quote is as before. *)
Theorem approve_and_pay_adds_charges (db : DB) (quote : Quote.t) (amount_paid ref : Z)
    (charges : list Charge) :
  Quote.get_amount_paid db quote = Ok amount_paid ->
  stripe_customers db !! ref = Some charges ->
  exists db',
    Quote.approve_and_pay db quote ref = Ok db'
    /\ Quote.get_amount_paid db' quote = Ok (amount_paid + sum_paid charges)
    /\ (forall listed, Quote.get_charges db quote = Ok listed ->
                       Quote.get_charges db' quote = Ok (listed ++ charges)%list)
    /\ get_total db' quote = get_total db quote.
Proof.
  intros Hpaid Href.
  destruct (approve_known _ _ _ _ _ Hpaid Href)
    as (db' & payments & Hdone & _ & _ & _ & Hpaid' & Hcharges' & Htotal).
  exists db'. auto.
Qed.

Lemma approve_and_pay_adds_charges_witness :
  exists db',
    Quote.approve_and_pay paid_db plain_quote 9 = Ok db'
    /\ Quote.get_amount_paid db' plain_quote = Ok 100.
Proof.
  destruct (approve_and_pay_adds_charges paid_db plain_quote 50 9
              [ {| amount := 5000; amount_refunded := 0 |} ])
    as (db' & Hdone & Hpaid & _); try (vm_compute; reflexivity).
  exists db'. split; [exact Hdone | exact Hpaid].
Defined.

(** X6.  [approve_and_pay] does not check whether a reference is already
    recorded: recording the same known customer twice puts the reference in
    the list twice, and its charges count twice in the amount paid. *)
Theorem approve_and_pay_twice (db : DB) (quote : Quote.t) (amount_paid ref : Z)
    (charges : list Charge) :
  Quote.get_amount_paid db quote = Ok amount_paid ->
  stripe_customers db !! ref = Some charges ->
  exists db1 db2 payments,
    Quote.approve_and_pay db quote ref = Ok db1
    /\ Quote.approve_and_pay db1 quote ref = Ok db2
    /\ Quote.get_payments db quote = Ok payments
    /\ Quote.get_payments db2 quote = Ok (payments ++ [ref; ref])%list
    /\ Quote.get_amount_paid db2 quote = Ok (amount_paid + 2 * sum_paid charges).
Proof.
  intros Hpaid Href.
  destruct (approve_known _ _ _ _ _ Hpaid Href)
    as (db1 & payments & Hdone1 & Hpayments & Hafter1 & Hsame1 & Hpaid1 & _).
  assert (Href1 : stripe_customers db1 !! ref = Some charges) by (rewrite Hsame1; exact Href).
  destruct (approve_known _ _ _ _ _ Hpaid1 Href1)
    as (db2 & payments1 & Hdone2 & Hpayments1 & Hafter2 & _ & Hpaid2 & _).
  exists db1, db2, payments. split; [exact Hdone1 |]. split; [exact Hdone2 |].
  split; [exact Hpayments |].
  rewrite Hafter1 in Hpayments1. injection Hpayments1 as <-.
  rewrite <- app_assoc in Hafter2. split; [exact Hafter2 |].
  rewrite Hpaid2. f_equal. lia.
Qed.

Lemma approve_and_pay_twice_witness :
  exists db1 db2,
    Quote.approve_and_pay paid_db plain_quote 9 = Ok db1
    /\ Quote.approve_and_pay db1 plain_quote 9 = Ok db2
    /\ Quote.get_payments db2 plain_quote = Ok [9; 9; 9]
    /\ Quote.get_amount_paid db2 plain_quote = Ok 150.
Proof.
  destruct (approve_and_pay_twice paid_db plain_quote 50 9
              [ {| amount := 5000; amount_refunded := 0 |} ])
    as (db1 & db2 & payments & Hdone1 & Hdone2 & Hbefore & Hafter & Hpaid);
    try (vm_compute; reflexivity).
  exists db1, db2. split; [exact Hdone1 |]. split; [exact Hdone2 |].
  assert (Hpayments : payments = [9]).
  { assert (Hread : Quote.get_payments paid_db plain_quote = Ok [9])
      by (vm_compute; reflexivity).
    congruence. }
  subst payments. split; [exact Hafter | exact Hpaid].
Defined.

(** ** Whole currency units *)

Lemma hundredths (cents : Z) : cents - 99 <= 100 * (cents / 100) <= cents.
Proof.
  pose proof (Z.div_mod cents 100 ltac:(lia)) as Hsplit.
  pose proof (Z.mod_pos_bound cents 100 ltac:(lia)) as Hbound. lia.
Qed.

Lemma sum_net_cents_cons (charge : Charge) (charges : list Charge) :
  sum_net_cents (charge :: charges)
  = (amount charge - amount_refunded charge) + sum_net_cents charges.
Proof. reflexivity. Qed.

Lemma sum_paid_near_net (charges : list Charge) :
  sum_net_cents charges - 99 * Z.of_nat (length charges)
  <= 100 * sum_paid charges
  <= sum_net_cents charges + 99 * Z.of_nat (length charges).
Proof.
  induction charges as [| charge charges IH]; [cbn; lia |].
  rewrite sum_paid_cons, sum_net_cents_cons. cbn [length].
  pose proof (hundredths (amount charge)). pose proof (hundredths (amount_refunded charge)).
  lia.
Qed.

Lemma sum_paid_nonnegative (charges : list Charge) :
  Forall (fun charge => amount_refunded charge <= amount charge) charges ->
  0 <= sum_paid charges.
Proof.
  induction 1 as [| charge charges Hle _ IH]; [cbn; lia |].
  rewrite sum_paid_cons.
  pose proof (Z.div_le_mono _ _ 100 ltac:(lia) Hle). lia.
Qed.

Lemma sum_paid_nothing (charges : list Charge) :
  Forall (fun charge =>
            amount_refunded charge = amount charge
            \/ (0 <= amount_refunded charge <= amount charge /\ amount charge < 100))
         charges ->
  sum_paid charges = 0.
Proof.
  induction 1 as [| charge charges Hcase _ IH]; [reflexivity |].
  rewrite sum_paid_cons, IH. destruct Hcase as [-> | Hsmall]; [lia |].
  rewrite !Z.div_small by lia. lia.
Qed.

(** X7.  The amount paid is a number of whole currency units: each charge
    contributes [amount / 100 - amount_refunded / 100], so a hundred times
    the amount paid is within 99 cents per charge of the net amount in cents.
    When no charge is refunded beyond its amount, the amount paid is not
    negative. *)
Theorem amount_paid_bounds (db : DB) (quote : Quote.t) (charges : list Charge) :
  Quote.get_charges db quote = Ok charges ->
  exists amount_paid,
    Quote.get_amount_paid db quote = Ok amount_paid
    /\ sum_net_cents charges - 99 * Z.of_nat (length charges) <= 100 * amount_paid
    /\ 100 * amount_paid <= sum_net_cents charges + 99 * Z.of_nat (length charges)
    /\ (Forall (fun charge => amount_refunded charge <= amount charge) charges ->
        0 <= amount_paid).
Proof.
  intros Hcharges. exists (sum_paid charges).
  split; [apply charges_then_paid; exact Hcharges |].
  pose proof (sum_paid_near_net charges) as [Hlow Hhigh].
  split; [exact Hlow |]. split; [exact Hhigh |]. apply sum_paid_nonnegative.
Qed.

Lemma amount_paid_bounds_witness :
  exists amount_paid,
    Quote.get_amount_paid paid_db plain_quote = Ok amount_paid
    /\ 0 <= amount_paid.
Proof.
  destruct (amount_paid_bounds paid_db plain_quote
              [ {| amount := 5000; amount_refunded := 0 |} ])
    as (amount_paid & Hpaid & _ & _ & Hnonneg); [vm_compute; reflexivity |].
  exists amount_paid. split; [exact Hpaid |].
  apply Hnonneg. repeat constructor. cbn. lia.
Defined.

(** X8.  When every listed charge was refunded in full, or is under one
    hundred cents with a refund within the amount, the amount paid is zero
    and the payment status is "Not Paid", whatever the total of the quote. *)
Theorem nothing_paid_status (db : DB) (quote : Quote.t) (charges : list Charge) :
  Quote.get_charges db quote = Ok charges ->
  Forall (fun charge =>
            amount_refunded charge = amount charge
            \/ (0 <= amount_refunded charge <= amount charge /\ amount charge < 100))
         charges ->
  Quote.get_amount_paid db quote = Ok 0
  /\ payment_status db quote = Ok NOT_PAID.
Proof.
  intros Hcharges Hnothing.
  pose proof (charges_then_paid _ _ _ Hcharges) as Hpaid.
  rewrite (sum_paid_nothing _ Hnothing) in Hpaid.
  split; [exact Hpaid |]. rewrite (payment_status_unfold _ _ _ Hpaid). reflexivity.
Qed.

Lemma nothing_paid_status_witness :
  Quote.get_amount_paid refunded_db plain_quote = Ok 0
  /\ payment_status refunded_db plain_quote = Ok NOT_PAID.
Proof.
  apply (nothing_paid_status refunded_db plain_quote
           [ {| amount := 5000; amount_refunded := 5000 |} ]).
  - vm_compute. reflexivity.
  - constructor; [left; reflexivity | constructor].
Defined.

(** ** Where the total of a quote comes from *)

Lemma sum_amounts_app (a b : list LineItem) :
  (sum_amounts (a ++ b) == sum_amounts a + sum_amounts b)%Q.
Proof.
  induction a as [| item a IH].
  { change (sum_amounts ([] ++ b)) with (sum_amounts b).
    change (sum_amounts []) with 0%Q. ring. }
  change (sum_amounts ((item :: a) ++ b))
    with (PyDecimal.value (get_amount item) + sum_amounts (a ++ b))%Q.
  change (sum_amounts (item :: a))
    with (PyDecimal.value (get_amount item) + sum_amounts a)%Q.
  rewrite IH. ring.
Qed.

Lemma quote_total_own (db : DB) (quote : Quote.t) :
  Quote.group_quote quote = None
  \/ line_items_all (quote_line_items db) (Quote.id quote) <> [] ->
  Quote.get_line_items db quote = line_items_all (quote_line_items db) (Quote.id quote).
Proof.
  intros [Hnone | Hsome].
  - unfold Quote.get_line_items, Quote.use_group_quote. rewrite Hnone. reflexivity.
  - apply not_delegated. exact Hsome.
Qed.

(** X9.  The total of a quote that delegates (a group quote is set and the
    quote has no line item of its own) is the total of its group quote.  The
    total of any other quote is the sum over its own line items: those of
    its group quote, if it has one, do not count. *)
Theorem quote_total_source (db : DB) (quote : Quote.t) :
  (forall group_quote,
      Quote.group_quote quote = Some group_quote ->
      line_items_all (quote_line_items db) (Quote.id quote) = [] ->
      get_total db quote = get_total db group_quote)
  /\ (Quote.group_quote quote = None
      \/ line_items_all (quote_line_items db) (Quote.id quote) <> [] ->
      (PyDecimal.value (get_total db quote)
       == sum_amounts (line_items_all (quote_line_items db) (Quote.id quote)))%Q).
Proof.
  split.
  - intros group_quote Hgroup Hnone.
    destruct (delegated db quote group_quote Hgroup Hnone) as [_ Hitems].
    unfold get_total. cbn [get_line_items Quote_document GroupQuote_document].
    rewrite Hitems. reflexivity.
  - intros Hown. rewrite (get_total_sum db quote).
    cbn [get_line_items Quote_document]. rewrite (quote_total_own db quote Hown).
    reflexivity.
Qed.

Lemma quote_total_source_witness :
  get_total group_db sample_quote = get_total group_db sample_group_quote
  /\ (PyDecimal.value (get_total item_added_db sample_quote) == sum_amounts [widget])%Q.
Proof.
  destruct (quote_total_source group_db sample_quote) as [Hdelegates _].
  destruct (quote_total_source item_added_db sample_quote) as [_ Hown].
  split.
  - apply Hdelegates; reflexivity.
  - apply Hown. right. vm_compute. discriminate.
Defined.

Lemma line_items_all_added (db : DB) (quote : Quote.t) (item : LineItem) :
  line_items_all (quote_line_items (add_line_item db quote item)) (Quote.id quote)
  = (line_items_all (quote_line_items db) (Quote.id quote) ++ [item])%list.
Proof.
  unfold add_line_item. cbn [quote_line_items with_quote_line_items].
  rewrite line_items_all_app. f_equal.
  unfold line_items_all. rewrite filter_cons. cbn [fst].
  destruct (decide (Quote.id quote = Quote.id quote)); [reflexivity | contradiction].
Qed.

(** X10.  Adding a line item to a quote that has line items of its own, or no
    group quote, raises its total by the amount of the item.  Adding one to a
    quote that delegated to its group quote makes the amount of the item the
    whole total: the line items of the group quote no longer count. *)
Theorem add_line_item_total (db : DB) (quote : Quote.t) (item : LineItem) :
  (Quote.group_quote quote = None
   \/ line_items_all (quote_line_items db) (Quote.id quote) <> [] ->
   (PyDecimal.value (get_total (add_line_item db quote item) quote)
    == PyDecimal.value (get_total db quote) + PyDecimal.value (get_amount item))%Q)
  /\ (Quote.group_quote quote <> None ->
      line_items_all (quote_line_items db) (Quote.id quote) = [] ->
      (PyDecimal.value (get_total (add_line_item db quote item) quote)
       == PyDecimal.value (get_amount item))%Q).
Proof.
  assert (Hafter : (PyDecimal.value (get_total (add_line_item db quote item) quote)
                    == sum_amounts (line_items_all (quote_line_items db) (Quote.id quote))
                       + PyDecimal.value (get_amount item))%Q).
  { rewrite (get_total_sum (add_line_item db quote item) quote).
    cbn [get_line_items Quote_document].
    rewrite (quote_total_own (add_line_item db quote item) quote).
    - rewrite line_items_all_added, sum_amounts_app. cbn. ring.
    - right. rewrite line_items_all_added. intros Hnil.
      apply app_eq_nil in Hnil. destruct Hnil as [_ Hnil]. discriminate Hnil. }
  split.
  - intros Hown. rewrite Hafter. rewrite (get_total_sum db quote).
    cbn [get_line_items Quote_document]. rewrite (quote_total_own db quote Hown).
    reflexivity.
  - intros _ Hnone. rewrite Hafter, Hnone. cbn. ring.
Qed.

Lemma add_line_item_total_witness :
  (PyDecimal.value (get_total (add_line_item paid_db plain_quote gadget) plain_quote)
   == PyDecimal.value (get_total paid_db plain_quote) + PyDecimal.value (get_amount gadget))%Q
  /\ (PyDecimal.value (get_total (add_line_item group_db sample_quote widget) sample_quote)
      == PyDecimal.value (get_amount widget))%Q.
Proof.
  split.
  - apply (proj1 (add_line_item_total paid_db plain_quote gadget)). left. reflexivity.
  - apply (proj2 (add_line_item_total group_db sample_quote widget)).
    + discriminate.
    + reflexivity.
Defined.

(** ** Line-item writes and other documents *)

Lemma line_items_all_added_other (db : DB) (quote : Quote.t) (item : LineItem) (owner : Z) :
  owner <> Quote.id quote ->
  line_items_all (quote_line_items (add_line_item db quote item)) owner
  = line_items_all (quote_line_items db) owner.
Proof.
  intros Hother. unfold add_line_item. cbn [quote_line_items with_quote_line_items].
  rewrite line_items_all_app.
  unfold line_items_all at 2. rewrite filter_cons. cbn [fst].
  destruct (decide (Quote.id quote = owner)); [congruence |].
  cbn. apply app_nil_r.
Qed.

Lemma line_items_all_deleted_other (table : list (Z * LineItem)) (deleted owner : Z) :
  owner <> deleted ->
  line_items_all (filter (fun row => fst row <> deleted) table) owner
  = line_items_all table owner.
Proof.
  intros Hother. unfold line_items_all. f_equal.
  induction table as [| row table IH]; [reflexivity |].
  rewrite (filter_cons (fun row => fst row <> deleted)).
  rewrite (filter_cons (fun row => fst row = owner) row table).
  destruct (decide (fst row <> deleted)) as [Hkept | Hgone].
  - rewrite filter_cons. destruct (decide (fst row = owner)); [f_equal |]; exact IH.
  - destruct (decide (fst row = owner)); [| exact IH].
    exfalso. apply Hgone. congruence.
Qed.

(** What a quote reads depends on its own rows and on the group table. *)
Lemma quote_reads_same (db db' : DB) (quote : Quote.t) :
  line_items_all (quote_line_items db') (Quote.id quote)
  = line_items_all (quote_line_items db) (Quote.id quote) ->
  group_quote_line_items db' = group_quote_line_items db ->
  Quote.get_line_items db' quote = Quote.get_line_items db quote
  /\ Quote.get_notes db' quote = Quote.get_notes db quote
  /\ get_total db' quote = get_total db quote.
Proof.
  intros Hown Hgroup.
  assert (Huse : Quote.use_group_quote db' quote = Quote.use_group_quote db quote).
  { unfold Quote.use_group_quote, line_items_exists. rewrite Hown. reflexivity. }
  assert (Hitems : Quote.get_line_items db' quote = Quote.get_line_items db quote).
  { unfold Quote.get_line_items, GroupQuote.get_line_items.
    rewrite Huse, Hown, Hgroup. reflexivity. }
  split; [exact Hitems |]. split.
  - unfold Quote.get_notes. rewrite Huse. reflexivity.
  - unfold get_total. cbn [get_line_items Quote_document]. rewrite Hitems. reflexivity.
Qed.

(** X11.  Adding a line item to a quote, or deleting the line items of a
    quote, changes nothing for a quote with another id: its line items, notes
    and total are as before, also when it delegates to a group quote.  The
    totals of group quotes and invoices are as before too. *)
Theorem line_item_writes_frame (db : DB) (quote other : Quote.t) (item : LineItem)
    (group_quote : GroupQuote.t) (invoice : Invoice.t) :
  Quote.id other <> Quote.id quote ->
  (Quote.get_line_items (add_line_item db quote item) other = Quote.get_line_items db other
   /\ Quote.get_notes (add_line_item db quote item) other = Quote.get_notes db other
   /\ get_total (add_line_item db quote item) other = get_total db other)
  /\ (Quote.get_line_items (delete_line_items db quote) other = Quote.get_line_items db other
      /\ Quote.get_notes (delete_line_items db quote) other = Quote.get_notes db other
      /\ get_total (delete_line_items db quote) other = get_total db other)
  /\ (get_total (add_line_item db quote item) group_quote = get_total db group_quote
      /\ get_total (delete_line_items db quote) group_quote = get_total db group_quote
      /\ get_total (add_line_item db quote item) invoice = get_total db invoice
      /\ get_total (delete_line_items db quote) invoice = get_total db invoice).
Proof.
  intros Hother. split; [| split].
  - apply quote_reads_same; [| reflexivity].
    apply line_items_all_added_other. exact Hother.
  - apply quote_reads_same; [| reflexivity].
    apply line_items_all_deleted_other. exact Hother.
  - repeat split.
Qed.

Lemma line_item_writes_frame_witness :
  get_total (add_line_item paid_db sample_quote gadget) plain_quote
  = get_total paid_db plain_quote
  /\ get_total (delete_line_items paid_db sample_quote) plain_quote
     = get_total paid_db plain_quote.
Proof.
  destruct (line_item_writes_frame paid_db sample_quote plain_quote gadget
              sample_group_quote sample_invoice)
    as ((_ & _ & Hadded) & (_ & _ & Hdeleted) & _); [discriminate |].
  split; [exact Hadded | exact Hdeleted].
Defined.

(** ** The order of the rows *)

Lemma sum_amounts_permutation (a b : list LineItem) :
  Permutation a b -> (sum_amounts a == sum_amounts b)%Q.
Proof.
  induction 1 as [| item a b _ IH | x y a | a b c _ IHab _ IHbc].
  - reflexivity.
  - change (PyDecimal.value (get_amount item) + sum_amounts a
            == PyDecimal.value (get_amount item) + sum_amounts b)%Q.
    rewrite IH. reflexivity.
  - change (PyDecimal.value (get_amount y) + (PyDecimal.value (get_amount x) + sum_amounts a)
            == PyDecimal.value (get_amount x)
               + (PyDecimal.value (get_amount y) + sum_amounts a))%Q.
    ring.
  - rewrite IHab. exact IHbc.
Qed.

Lemma line_items_all_permutation (table table' : list (Z * LineItem)) (owner : Z) :
  Permutation table table' ->
  Permutation (line_items_all table owner) (line_items_all table' owner).
Proof.
  intros Hrows. unfold line_items_all. apply Permutation_map.
  apply filter_Permutation. exact Hrows.
Qed.

Lemma permutation_nil_iff {A : Type} (a b : list A) : Permutation a b -> a = [] <-> b = [].
Proof.
  intros Hperm. split; intros ->.
  - apply Permutation_nil. exact Hperm.
  - apply Permutation_nil. symmetry. exact Hperm.
Qed.

(** X12.  The total of a document does not depend on the order in which the
    database returns the rows: in two databases whose line-item tables hold
    the same rows in any order, a quote (delegating or not), a group quote
    and an invoice each have totals of the same value. *)
Theorem total_order_independent (db db' : DB) (quote : Quote.t)
    (group_quote : GroupQuote.t) (invoice : Invoice.t) :
  Permutation (quote_line_items db) (quote_line_items db') ->
  Permutation (group_quote_line_items db) (group_quote_line_items db') ->
  Permutation (invoice_line_items db) (invoice_line_items db') ->
  (PyDecimal.value (get_total db quote) == PyDecimal.value (get_total db' quote))%Q
  /\ (PyDecimal.value (get_total db group_quote)
      == PyDecimal.value (get_total db' group_quote))%Q
  /\ (PyDecimal.value (get_total db invoice) == PyDecimal.value (get_total db' invoice))%Q.
Proof.
  intros Hquotes Hgroups Hinvoices.
  pose proof (line_items_all_permutation _ _ (Quote.id quote) Hquotes) as Hown.
  split; [| split].
  - rewrite (get_total_sum db quote), (get_total_sum db' quote).
    apply sum_amounts_permutation. cbn [get_line_items Quote_document].
    unfold Quote.get_line_items, Quote.use_group_quote, line_items_exists.
    destruct (Quote.group_quote quote) as [group |]; [| exact Hown].
    pose proof (permutation_nil_iff _ _ Hown) as Hnil.
    destruct (line_items_all (quote_line_items db) (Quote.id quote)) as [| item items] eqn:Hdb;
      destruct (line_items_all (quote_line_items db') (Quote.id quote)) as [| item' items']
        eqn:Hdb'; cbn [negb].
    + apply line_items_all_permutation. exact Hgroups.
    + exfalso. destruct Hnil as [Hnil _]. discriminate (Hnil eq_refl).
    + exfalso. destruct Hnil as [_ Hnil]. discriminate (Hnil eq_refl).
    + exact Hown.
  - rewrite (get_total_sum db group_quote), (get_total_sum db' group_quote).
    apply sum_amounts_permutation. apply line_items_all_permutation. exact Hgroups.
  - rewrite (get_total_sum db invoice), (get_total_sum db' invoice).
    apply sum_amounts_permutation. apply line_items_all_permutation. exact Hinvoices.
Qed.

Lemma total_order_independent_witness :
  (PyDecimal.value (get_total invoiced_db quote_invoice)
   == PyDecimal.value (get_total reordered_db quote_invoice))%Q.
Proof.
  destruct (total_order_independent invoiced_db reordered_db plain_quote
              sample_group_quote quote_invoice) as (_ & _ & Hinvoice).
  - reflexivity.
  - reflexivity.
  - apply perm_swap.
  - exact Hinvoice.
Defined.

(** ** Totals keep the decimal places of the unit costs *)

Lemma add_same_exponent (a c e : Z) :
  PyDecimal.add (PyDecimal.mk a e) (PyDecimal.mk c e) = PyDecimal.mk (a + c) e.
Proof.
  unfold PyDecimal.add, PyDecimal.rescale. cbn [PyDecimal.exponent PyDecimal.coefficient].
  rewrite Z.min_id, Z.sub_diag. cbn [Z.pow]. f_equal. lia.
Qed.

Lemma add_to_integer_zero (c e : Z) :
  e <= 0 ->
  PyDecimal.add (PyDecimal.of_int 0) (PyDecimal.mk c e) = PyDecimal.mk c e.
Proof.
  intros Hplaces. unfold PyDecimal.add, PyDecimal.rescale, PyDecimal.of_int.
  cbn [PyDecimal.exponent PyDecimal.coefficient].
  rewrite (Z.min_r 0 e) by exact Hplaces. rewrite Z.sub_diag. cbn [Z.pow].
  f_equal. lia.
Qed.

Lemma get_amount_places (item : LineItem) (e : Z) :
  PyDecimal.exponent (unit_cost item) = e ->
  get_amount item
  = PyDecimal.mk (PyDecimal.coefficient (unit_cost item) * quantity item) e.
Proof.
  intros <-. unfold get_amount, PyDecimal.mul, PyDecimal.of_int.
  cbn [PyDecimal.exponent PyDecimal.coefficient]. rewrite Z.add_0_r. reflexivity.
Qed.

Lemma sum_coefficients_cons (item : LineItem) (items : list LineItem) :
  sum_coefficients (item :: items)
  = PyDecimal.coefficient (unit_cost item) * quantity item + sum_coefficients items.
Proof. reflexivity. Qed.

Lemma fold_same_places (items : list LineItem) (e : Z) :
  Forall (fun item => PyDecimal.exponent (unit_cost item) = e) items ->
  forall subtotal,
    fold_left (fun subtotal item => PyDecimal.add subtotal (get_amount item))
              items (PyDecimal.mk subtotal e)
    = PyDecimal.mk (subtotal + sum_coefficients items) e.
Proof.
  induction 1 as [| item items Hplaces _ IH]; intros subtotal.
  - cbn. f_equal. lia.
  - cbn [fold_left]. rewrite (get_amount_places item e Hplaces), add_same_exponent, IH.
    rewrite sum_coefficients_cons. f_equal. lia.
Qed.

(** The total of a non-empty list of items with [e <= 0] places. *)
Lemma total_same_places {A : Type} `{AbstractCPQQuote A} (db : DB) (self : A) (e : Z) :
  e <= 0 ->
  Forall (fun item => PyDecimal.exponent (unit_cost item) = e) (get_line_items db self) ->
  get_line_items db self <> [] ->
  get_total db self = PyDecimal.mk (sum_coefficients (get_line_items db self)) e.
Proof.
  intros Hplaces Hall Hsome. unfold get_total.
  destruct (get_line_items db self) as [| item items]; [contradiction |].
  inversion Hall as [| ? ? Hitem Hitems]; subst.
  cbn [fold_left].
  rewrite (get_amount_places item _ eq_refl), add_to_integer_zero by exact Hplaces.
  rewrite (fold_same_places items _ Hitems). rewrite sum_coefficients_cons. reflexivity.
Qed.

(** X13.  When every line item of a quote, group quote or invoice has a unit
    cost with the same number of decimal places (an exponent [e] that is not
    positive, as the two places of a currency amount) and there is at least
    one line item, the total is exactly the decimal with that exponent whose
    coefficient is the sum of [coefficient * quantity]: totals of currency
    amounts keep two decimal places and lose nothing. *)
Theorem total_keeps_places (db : DB) (e : Z) (quote : Quote.t) (group_quote : GroupQuote.t)
    (invoice : Invoice.t) :
  e <= 0 ->
  (Forall (fun item => PyDecimal.exponent (unit_cost item) = e)
          (Quote.get_line_items db quote) ->
   Quote.get_line_items db quote <> [] ->
   get_total db quote = PyDecimal.mk (sum_coefficients (Quote.get_line_items db quote)) e)
  /\ (Forall (fun item => PyDecimal.exponent (unit_cost item) = e)
             (GroupQuote.get_line_items db group_quote) ->
      GroupQuote.get_line_items db group_quote <> [] ->
      get_total db group_quote
      = PyDecimal.mk (sum_coefficients (GroupQuote.get_line_items db group_quote)) e)
  /\ (Forall (fun item => PyDecimal.exponent (unit_cost item) = e)
             (Invoice.get_line_items db invoice) ->
      Invoice.get_line_items db invoice <> [] ->
      get_total db invoice
      = PyDecimal.mk (sum_coefficients (Invoice.get_line_items db invoice)) e).
Proof.
  intros Hplaces. split; [| split].
  - exact (total_same_places db quote e Hplaces).
  - exact (total_same_places db group_quote e Hplaces).
  - exact (total_same_places db invoice e Hplaces).
Qed.

Lemma total_keeps_places_witness :
  get_total invoiced_db plain_quote = PyDecimal.mk 5997 (-2)
  /\ get_total invoiced_db sample_group_quote = PyDecimal.mk 1000 (-2)
  /\ get_total invoiced_db quote_invoice = PyDecimal.mk 1000 (-2).
Proof.
  destruct (total_keeps_places invoiced_db (-2) plain_quote sample_group_quote
              quote_invoice) as (Hquote & Hgroup & Hinvoice); [lia |].
  split; [| split].
  - apply Hquote; [repeat constructor | discriminate].
  - apply Hgroup; [repeat constructor | discriminate].
  - apply Hinvoice; [repeat constructor | discriminate].
Defined.

(** X14.  The total of an invoice is the sum of the amounts of its own
    line items, and the integer zero when it has none; the line items of the
    quote it was raised from do not count. *)
Theorem invoice_total (db : DB) (invoice : Invoice.t) :
  (PyDecimal.value (get_total db invoice)
   == sum_amounts (line_items_all (invoice_line_items db) (Invoice.id invoice)))%Q
  /\ (line_items_all (invoice_line_items db) (Invoice.id invoice) = [] ->
      get_total db invoice = PyDecimal.of_int 0)
  /\ (forall db',
         invoice_line_items db' = invoice_line_items db ->
         get_total db' invoice = get_total db invoice).
Proof.
  split; [| split].
  - exact (get_total_sum db invoice).
  - exact (get_total_empty db invoice).
  - intros db' Hrows. unfold get_total.
    cbn [get_line_items Invoice_document]. unfold Invoice.get_line_items.
    rewrite Hrows. reflexivity.
Qed.

Lemma invoice_total_witness :
  get_total paid_db quote_invoice = PyDecimal.of_int 0
  /\ get_total (add_line_item invoiced_db plain_quote widget) quote_invoice
     = get_total invoiced_db quote_invoice.
Proof.
  split.
  - apply (proj1 (proj2 (invoice_total paid_db quote_invoice))). reflexivity.
  - apply (proj2 (proj2 (invoice_total invoiced_db quote_invoice))). reflexivity.
Defined.

(** * Further properties of the view helpers *)

(** ** The asset version *)

(** A table of all fields below a bound: each is printed on [width]
    characters and reads back as the number. *)
Lemma zero_pad_table (width bound : nat) :
  forallb (fun k =>
             Nat.eqb (String.length (zero_pad width (Z.of_nat k))) width
             && match field_number (zero_pad width (Z.of_nat k)) with
                | Some m => m =? Z.of_nat k
                | None => false
                end)
          (seq 0 bound) = true ->
  forall n, 0 <= n < Z.of_nat bound ->
    String.length (zero_pad width n) = width
    /\ field_number (zero_pad width n) = Some n.
Proof.
  intros Htable n Hrange. rewrite forallb_forall in Htable.
  specialize (Htable (Z.to_nat n)). rewrite Z2Nat.id in Htable by lia.
  assert (Hin : In (Z.to_nat n) (seq 0 bound)) by (apply in_seq; lia).
  apply Htable in Hin. apply andb_prop in Hin. destruct Hin as [Hlength Hnumber].
  split; [apply Nat.eqb_eq; exact Hlength |].
  destruct (field_number (zero_pad width n)) as [m |]; [| discriminate].
  apply Z.eqb_eq in Hnumber. congruence.
Qed.

Lemma zero_pad_two (n : Z) :
  0 <= n < 100 ->
  String.length (zero_pad 2 n) = 2%nat /\ field_number (zero_pad 2 n) = Some n.
Proof. apply (zero_pad_table 2 100). vm_compute. reflexivity. Qed.

(** A padded field reads back as the number, whatever its width. *)
Lemma zeros_before_digits (k : nat) (d : uint) :
  string_of_list_ascii (replicate k "0"%char) +:+ NilEmpty.string_of_uint d
  = NilEmpty.string_of_uint (Nat.iter k D0 d).
Proof.
  induction k as [| k IH]; [reflexivity |].
  cbn [replicate string_of_list_ascii Nat.iter NilEmpty.string_of_uint].
  rewrite append_cons, IH. reflexivity.
Qed.

Lemma str_nonnegative (n : Z) :
  0 <= n ->
  exists d, d <> Nil /\ str n = NilEmpty.string_of_uint d /\ Z.of_int (Pos d) = n.
Proof.
  intros Hn. destruct n as [| p | p]; [| | lia].
  - exists (D0 Nil). repeat split. discriminate.
  - exists (Pos.to_uint p). split; [apply DecimalPos.Unsigned.to_uint_nonnil |].
    split; [| apply (DecimalZ.of_to (Z.pos p))].
    unfold str. cbn [Z.to_int NilZero.string_of_int].
    pose proof (DecimalPos.Unsigned.to_uint_nonnil p) as Hnil.
    destruct (Pos.to_uint p); [contradiction | reflexivity ..].
Qed.

Lemma zero_pad_number (width : nat) (n : Z) :
  0 <= n -> field_number (zero_pad width n) = Some n.
Proof.
  intros Hn. destruct (str_nonnegative n Hn) as (d & Hnil & Hstr & Hvalue).
  unfold zero_pad, field_number. cbv zeta. rewrite Hstr, zeros_before_digits.
  set (k := (width - String.length (NilEmpty.string_of_uint d))%nat).
  assert (Hpadded : Nat.iter k D0 d <> Nil).
  { destruct k; [exact Hnil | discriminate]. }
  assert (Hint : NilEmpty.string_of_uint (Nat.iter k D0 d)
                 = NilZero.string_of_int (Pos (Nat.iter k D0 d))).
  { cbn [NilZero.string_of_int]. destruct (Nat.iter k D0 d); [contradiction | reflexivity ..]. }
  rewrite Hint, NilZero.isi by congruence. cbn [option_map]. f_equal.
  rewrite <- Hvalue, <- (DecimalZ.of_int_norm (Pos (Nat.iter k D0 d))).
  rewrite <- (DecimalZ.of_int_norm (Pos d)). cbn [norm].
  rewrite DecimalFacts.unorm_iter_D0. reflexivity.
Qed.

(** Two texts that start with fields of the same length. *)
Lemma append_split (a a' b b' : string) :
  String.length a = String.length a' ->
  a +:+ b = a' +:+ b' ->
  a = a' /\ b = b'.
Proof.
  revert a'. induction a as [| c a IH]; intros [| c' a'] Hlength Heq;
    try discriminate Hlength.
  - split; [reflexivity | exact Heq].
  - rewrite !append_cons in Heq. injection Heq as -> Heq.
    injection Hlength as Hlength.
    destruct (IH a' Hlength Heq) as [-> ->]. split; reflexivity.
Qed.

Lemma strftime_fields (t1 t2 : datetime) :
  calendar_hour t1 -> calendar_hour t2 ->
  strftime_YmdH t1 = strftime_YmdH t2 ->
  year t1 = year t2 /\ month t1 = month t2 /\ day t1 = day t2 /\ hour t1 = hour t2.
Proof.
  intros (Hy1 & Hm1 & Hd1 & Hh1) (Hy2 & Hm2 & Hd2 & Hh2) Hstamp.
  unfold strftime_YmdH in Hstamp.
  pose proof (zero_pad_number 4 (year t1) ltac:(lia)) as Ny1.
  pose proof (zero_pad_number 4 (year t2) ltac:(lia)) as Ny2.
  destruct (zero_pad_two (month t1) ltac:(lia)) as [Lm1 Nm1].
  destruct (zero_pad_two (month t2) ltac:(lia)) as [Lm2 Nm2].
  destruct (zero_pad_two (day t1) ltac:(lia)) as [Ld1 Nd1].
  destruct (zero_pad_two (day t2) ltac:(lia)) as [Ld2 Nd2].
  destruct (zero_pad_two (hour t1) ltac:(lia)) as [Lh1 Nh1].
  destruct (zero_pad_two (hour t2) ltac:(lia)) as [Lh2 Nh2].
  assert (Ly : String.length (zero_pad 4 (year t1)) = String.length (zero_pad 4 (year t2))).
  { pose proof (f_equal String.length Hstamp) as Hlength.
    rewrite !append_length in Hlength. lia. }
  apply append_split in Hstamp; [| exact Ly]. destruct Hstamp as [Hyear Hstamp].
  apply append_split in Hstamp; [| congruence]. destruct Hstamp as [Hmonth Hstamp].
  apply append_split in Hstamp; [| congruence]. destruct Hstamp as [Hday Hhour].
  rewrite Hyear in Ny1. rewrite Hmonth in Nm1. rewrite Hday in Nd1. rewrite Hhour in Nh1.
  repeat split; congruence.
Qed.

(** X15.  [get_asset_version] returns what the cache holds whenever it holds
    a string, the empty string included, without looking at the clock.  With
    nothing cached, the version is the stamp of the current UTC hour: it is
    the same for two instants exactly when they fall in the same hour of the
    same day, whatever their minutes and seconds. *)
Theorem asset_version_by_the_hour :
  (forall version now, get_asset_version (Some version) now = version)
  /\ (forall t1 t2,
         calendar_hour t1 -> calendar_hour t2 ->
         get_asset_version None t1 = get_asset_version None t2
         <-> year t1 = year t2 /\ month t1 = month t2
             /\ day t1 = day t2 /\ hour t1 = hour t2).
Proof.
  split; [reflexivity |].
  intros t1 t2 Hvalid1 Hvalid2. cbn [get_asset_version]. split.
  - apply strftime_fields; assumption.
  - intros (Hyear & Hmonth & Hday & Hhour). unfold strftime_YmdH.
    rewrite Hyear, Hmonth, Hday, Hhour. reflexivity.
Qed.

Lemma asset_version_by_the_hour_witness :
  get_asset_version None noon
  = get_asset_version None
      {| year := 2015; month := 3; day := 7; hour := 12; minute := 0; second := 0 |}.
Proof.
  destruct asset_version_by_the_hour as (_ & Hsame).
  apply Hsame; [unfold calendar_hour; cbn; lia | unfold calendar_hour; cbn; lia |].
  repeat split.
Defined.

Example asset_version_at_noon : get_asset_version None noon = "2015030712".
Proof. reflexivity. Qed.

(** ** The template context *)

Section ContextFacts.

Variable csrf : HttpRequest -> gmap string value.
Variable gethostname : string.
Variable settings : Settings.
Variable cached : option string.
Variable utcnow : datetime.
Variable request : HttpRequest.
Variable data : option (gmap string value).

(** The entries [wrap_data] writes, last written first. *)
Lemma wrap_data_errors :
  wrap_data csrf gethostname settings cached utcnow request data !! "errors"
  = Some (VList []).
Proof. unfold wrap_data. cbv zeta. apply lookup_insert_eq. Qed.

Lemma wrap_data_user :
  wrap_data csrf gethostname settings cached utcnow request data !! "user"
  = Some (if is_authenticated (user request) then VUser (user request) else VNone).
Proof.
  unfold wrap_data. cbv zeta.
  rewrite lookup_insert_ne by discriminate. apply lookup_insert_eq.
Qed.

Lemma wrap_data_asset_version :
  wrap_data csrf gethostname settings cached utcnow request data !! "asset_version"
  = Some (VStr (get_asset_version cached utcnow)).
Proof.
  unfold wrap_data. cbv zeta.
  rewrite !lookup_insert_ne by discriminate. apply lookup_insert_eq.
Qed.

Lemma wrap_data_css_ext :
  wrap_data csrf gethostname settings cached utcnow request data !! "css_ext"
  = Some (VStr (if ENV_DEV settings && query_flag request "useless"
                then "less"
                else "css?v=" +:+ get_asset_version cached utcnow)).
Proof.
  unfold wrap_data. cbv zeta.
  rewrite !lookup_insert_ne by discriminate. apply lookup_insert_eq.
Qed.

Lemma wrap_data_css_rel :
  wrap_data csrf gethostname settings cached utcnow request data !! "css_rel"
  = Some (VStr (if ENV_DEV settings && query_flag request "useless"
                then "stylesheet/less"
                else "stylesheet")).
Proof.
  unfold wrap_data. cbv zeta.
  rewrite !lookup_insert_ne by discriminate. apply lookup_insert_eq.
Qed.

Lemma wrap_data_rollbar_env :
  wrap_data csrf gethostname settings cached utcnow request data !! "rollbar_env"
  = Some (VStr (ROLLBAR_ENV settings)).
Proof.
  unfold wrap_data. cbv zeta.
  rewrite !lookup_insert_ne by discriminate. apply lookup_insert_eq.
Qed.

Lemma wrap_data_server :
  wrap_data csrf gethostname settings cached utcnow request data !! "server"
  = Some (VDict [("hostname", FStr gethostname)]).
Proof.
  unfold wrap_data. cbv zeta.
  rewrite !lookup_insert_ne by discriminate. apply lookup_insert_eq.
Qed.

Lemma wrap_data_request :
  wrap_data csrf gethostname settings cached utcnow request data !! "request"
  = Some (VDict [("request", FRequest request);
                 ("is_secure", FBool (is_secure request));
                 ("host", FStr (get_host request));
                 ("path", FStr (path request));
                 ("full_uri",
                  FStr (("http" +:+ (if is_secure request then "s" else "")) +:+ "://"
                        +:+ get_host request +:+ path request))]).
Proof.
  unfold wrap_data. cbv zeta.
  rewrite !lookup_insert_ne by discriminate. apply lookup_insert_eq.
Qed.

(** Any other key is read from the token dictionary, then from the caller. *)
Lemma wrap_data_other (key : string) :
  ~ In key wrap_data_keys ->
  wrap_data csrf gethostname settings cached utcnow request data !! key
  = (csrf request ∪ match data with
                    | None => ∅
                    | Some data => data
                    end) !! key.
Proof.
  intros Hother. unfold wrap_data. cbv zeta.
  rewrite !lookup_insert_ne; [reflexivity | ..];
    intros <-; apply Hother; cbn; tauto.
Qed.

End ContextFacts.

Lemma query_flag_set (request : HttpRequest) (key : string) :
  query_flag request key = true
  <-> exists text, GET request !! key = Some text /\ text <> "".
Proof.
  unfold query_flag. destruct (GET request !! key) as [[| c text] |]; split.
  - discriminate.
  - intros (text & [= <-] & Hne). contradiction.
  - intros _. exists (String c text). split; [reflexivity | discriminate].
  - reflexivity.
  - discriminate.
  - intros (text & Hsome & _). discriminate Hsome.
Qed.

(** X16.  The style sheets [wrap_data] announces.  The context asks for LESS
    sources ([css_rel] "stylesheet/less", [css_ext] "less") exactly when the
    setting [ENV_DEV] is on and the request carries a non-empty [useless]
    parameter.  With [ENV_DEV] off the parameter has no effect: [css_rel] is
    "stylesheet" and [css_ext] is "css?v=" followed by the asset version,
    the version also stored under [asset_version]. *)
Theorem wrap_data_stylesheet (csrf : HttpRequest -> gmap string value) (gethostname : string)
    (settings : Settings) (cached : option string) (utcnow : datetime)
    (request : HttpRequest) (data : option (gmap string value)) :
  (wrap_data csrf gethostname settings cached utcnow request data !! "css_rel"
   = Some (VStr "stylesheet/less")
   <-> ENV_DEV settings = true
       /\ exists text, GET request !! "useless" = Some text /\ text <> "")
  /\ (wrap_data csrf gethostname settings cached utcnow request data !! "css_ext"
      = Some (VStr "less")
      <-> ENV_DEV settings = true
          /\ exists text, GET request !! "useless" = Some text /\ text <> "")
  /\ (ENV_DEV settings = false ->
      wrap_data csrf gethostname settings cached utcnow request data !! "css_rel"
      = Some (VStr "stylesheet")
      /\ wrap_data csrf gethostname settings cached utcnow request data !! "css_ext"
         = Some (VStr ("css?v=" +:+ get_asset_version cached utcnow))
      /\ wrap_data csrf gethostname settings cached utcnow request data !! "asset_version"
         = Some (VStr (get_asset_version cached utcnow))).
Proof.
  rewrite wrap_data_css_rel, wrap_data_css_ext, wrap_data_asset_version.
  rewrite <- query_flag_set.
  split; [| split].
  - destruct (ENV_DEV settings), (query_flag request "useless"); cbn;
      split; try tauto; try discriminate; intros [? ?]; discriminate.
  - destruct (ENV_DEV settings), (query_flag request "useless"); cbn;
      rewrite ?append_cons; split; try tauto; try discriminate;
      intros [? ?]; discriminate.
  - intros ->. cbn. auto.
Qed.

Lemma wrap_data_stylesheet_witness :
  wrap_data token_only "web1" production None noon less_request None !! "css_rel"
  = Some (VStr "stylesheet")
  /\ wrap_data token_only "web1" production None noon less_request None !! "css_ext"
     = Some (VStr "css?v=2015030712").
Proof.
  destruct (wrap_data_stylesheet token_only "web1" production None noon less_request None)
    as (_ & _ & Hproduction).
  destruct (Hproduction eq_refl) as (Hrel & Hext & _).
  split; [exact Hrel | exact Hext].
Defined.

(** X17.  The eight keys [wrap_data] sets always win.  The entry [errors] is
    the empty list and [user] is the request's user when authenticated and
    [None] otherwise, and the value under each of the eight keys is the same
    whatever dictionary the caller passed and whatever [csrf] returned.  Any
    other key holds the value from [csrf] if [csrf] has the key, and the
    caller's value otherwise; passing no dictionary is passing an empty
    one. *)
Theorem wrap_data_keys_win (csrf : HttpRequest -> gmap string value) (gethostname : string)
    (settings : Settings) (cached : option string) (utcnow : datetime)
    (request : HttpRequest) (data : gmap string value) :
  wrap_data csrf gethostname settings cached utcnow request (Some data) !! "errors"
  = Some (VList [])
  /\ wrap_data csrf gethostname settings cached utcnow request (Some data) !! "user"
     = Some (if is_authenticated (user request) then VUser (user request) else VNone)
  /\ (forall key other_csrf other_data,
         In key wrap_data_keys ->
         wrap_data other_csrf gethostname settings cached utcnow request other_data !! key
         = wrap_data csrf gethostname settings cached utcnow request (Some data) !! key)
  /\ (forall key,
         ~ In key wrap_data_keys ->
         (forall token, csrf request !! key = Some token ->
                        wrap_data csrf gethostname settings cached utcnow request (Some data)
                          !! key = Some token)
         /\ (csrf request !! key = None ->
             wrap_data csrf gethostname settings cached utcnow request (Some data) !! key
             = data !! key))
  /\ wrap_data csrf gethostname settings cached utcnow request None
     = wrap_data csrf gethostname settings cached utcnow request (Some ∅).
Proof.
  split; [apply wrap_data_errors |]. split; [apply wrap_data_user |].
  split; [| split; [| reflexivity]].
  - intros key other_csrf other_data Hkey.
    cbn in Hkey.
    destruct Hkey as [<- | [<- | [<- | [<- | [<- | [<- | [<- | [<- | []]]]]]]]].
    + rewrite !wrap_data_request. reflexivity.
    + rewrite !wrap_data_server. reflexivity.
    + rewrite !wrap_data_rollbar_env. reflexivity.
    + rewrite !wrap_data_css_rel. reflexivity.
    + rewrite !wrap_data_css_ext. reflexivity.
    + rewrite !wrap_data_asset_version. reflexivity.
    + rewrite !wrap_data_user. reflexivity.
    + rewrite !wrap_data_errors. reflexivity.
  - intros key Hother. rewrite (wrap_data_other _ _ _ _ _ _ _ _ Hother). split.
    + intros token Htoken. apply lookup_union_Some_l. exact Htoken.
    + intros Hnone. apply lookup_union_r. exact Hnone.
Qed.

Lemma wrap_data_keys_win_witness :
  wrap_data token_only "web1" production None noon less_request
            (Some {[ "errors" := VList ["stale"]; "title" := VStr "Quotes" ]}) !! "errors"
  = Some (VList [])
  /\ wrap_data token_only "web1" production None noon less_request
               (Some {[ "errors" := VList ["stale"]; "title" := VStr "Quotes" ]}) !! "title"
     = Some (VStr "Quotes").
Proof.
  destruct (wrap_data_keys_win token_only "web1" production None noon less_request
              {[ "errors" := VList ["stale"]; "title" := VStr "Quotes" ]})
    as (Herrors & _ & _ & Hother & _).
  split; [exact Herrors |].
  destruct (Hother "title") as [_ Hcaller].
  - cbn. intros H. repeat (destruct H as [H | H]; [discriminate H |]). exact H.
  - rewrite Hcaller; vm_compute; reflexivity.
Defined.

(** X18.  [render_to_response_custom] renders the template it was asked for
    with the caller's dictionary in which [javascripts] is replaced by what
    [get_javascripts] returned for that template, a list of at most one
    path; every other key is the caller's.  When [get_javascripts] raises,
    the exception is passed on and nothing is rendered.  Passing no
    dictionary is passing an empty one. *)
Theorem render_to_response_custom_context
    (re_match : string -> string -> result (option MatchObject))
    (Template : Type) (get_template : string -> result Template)
    (Response : Type) (render_to_response : string -> gmap string value -> Response)
    (template_name template_prefix : string) (data : gmap string value) :
  match render_to_response_custom re_match Template get_template Response render_to_response
                                  template_name (Some data) template_prefix with
  | Ok response =>
      exists javascripts,
        get_javascripts re_match Template get_template template_name template_prefix
        = Ok javascripts
        /\ (length javascripts <= 1)%nat
        /\ response
           = render_to_response template_name (<["javascripts" := VList javascripts]> data)
        /\ <["javascripts" := VList javascripts]> data !! "javascripts"
           = Some (VList javascripts)
        /\ (forall key, key <> "javascripts" ->
                        <["javascripts" := VList javascripts]> data !! key = data !! key)
  | Raise e =>
      get_javascripts re_match Template get_template template_name template_prefix = Raise e
  end
  /\ render_to_response_custom re_match Template get_template Response render_to_response
                               template_name None template_prefix
     = render_to_response_custom re_match Template get_template Response render_to_response
                                 template_name (Some ∅) template_prefix.
Proof.
  split; [| reflexivity]. unfold render_to_response_custom.
  destruct (get_javascripts re_match Template get_template template_name template_prefix)
    as [javascripts | e] eqn:Hscripts; cbn [mbind result_bind]; [| reflexivity].
  exists javascripts. split; [reflexivity |]. split.
  - destruct (get_javascripts_returned _ _ _ _ _ _ Hscripts)
      as (candidate & _ & [[-> _] | [-> _]]); cbn; lia.
  - split; [reflexivity |]. split; [apply lookup_insert_eq |].
    intros key Hkey. apply lookup_insert_ne. congruence.
Qed.

Lemma render_to_response_custom_context_witness :
  render_to_response_custom re_match_literal unit sample_loader
                            (gmap string value) (fun _ context => context)
                            "page.html" None ""
  = render_to_response_custom re_match_literal unit sample_loader
                              (gmap string value) (fun _ context => context)
                              "page.html" (Some ∅) "".
Proof.
  apply (render_to_response_custom_context re_match_literal unit sample_loader
           (gmap string value) (fun _ context => context) "page.html" "" ∅).
Defined.

(** ** Script fragments under a literal prefix *)

Lemma not_special_paren (c : ascii) : regex_special c = false -> Ascii.eqb c "(" = false.
Proof.
  unfold regex_special. cbn [list_ascii_of_string existsb]. intros Hspecial.
  repeat (apply orb_false_elim in Hspecial; destruct Hspecial as [? Hspecial]).
  assumption.
Qed.

Lemma literal_before_group_app (literal : string) :
  all_literal literal = true ->
  literal_before_group (literal +:+ "(.*)") = Some literal.
Proof.
  induction literal as [| c literal IH]; intros Hliteral; [reflexivity |].
  cbn [all_literal] in Hliteral. apply andb_prop in Hliteral.
  destruct Hliteral as [Hc Hrest]. apply negb_true_iff in Hc.
  rewrite append_cons. cbn [literal_before_group].
  cbn [String.eqb]. rewrite (not_special_paren c Hc). rewrite (IH Hrest). reflexivity.
Qed.

Lemma all_literal_app (a b : string) :
  all_literal (a +:+ b) = all_literal a && all_literal b.
Proof.
  induction a as [| c a IH]; [reflexivity |].
  rewrite append_cons. cbn [all_literal]. rewrite IH. apply andb_assoc.
Qed.

Lemma strip_prefix_app (a b text : string) :
  strip_prefix (a +:+ b) text
  = match strip_prefix a text with
    | Some rest => strip_prefix b rest
    | None => None
    end.
Proof.
  revert text. induction a as [| c a IH]; intros text; [reflexivity |].
  rewrite append_cons. destruct text as [| d text]; [reflexivity |].
  cbn [strip_prefix]. destruct (Ascii.eqb c d); [apply IH | reflexivity].
Qed.

(** [re.match] on a literal text followed by the group. *)
Lemma re_match_literal_group (literal text : string) :
  all_literal literal = true ->
  re_match_literal (literal +:+ "(.*)") text
  = Ok (match strip_prefix literal text with
        | Some rest => Some {| group1 := Some (first_line rest) |}
        | None => None
        end).
Proof.
  intros Hliteral. unfold re_match_literal.
  rewrite (literal_before_group_app _ Hliteral), Hliteral. reflexivity.
Qed.

(** X19.  With a prefix that holds no special character of regular
    expressions, where [re.match] is a test for the literal text followed by
    a group that takes the rest of the line, the candidate path is decided by
    where the template name lies: under the prefix and then [admintools/],
    it is the prefix, [admintools/fragments/js/] and the rest of the name;
    elsewhere under the prefix, it is the prefix, [fragments/js/] and the
    rest of the name; outside the prefix, it is [fragments/js/] and the whole
    name, without the prefix.  Computing it never raises. *)
Theorem literal_prefix_candidates (template_name template_prefix : string) :
  all_literal template_prefix = true ->
  js_fragment_filename re_match_literal template_name template_prefix
  = Ok (match strip_prefix template_prefix template_name with
        | Some rest =>
            match strip_prefix "admintools/" rest with
            | Some page =>
                template_prefix +:+ "admintools/fragments/js/" +:+ first_line page
            | None => template_prefix +:+ "fragments/js/" +:+ first_line rest
            end
        | None => "fragments/js/" +:+ template_name
        end).
Proof.
  intros Hliteral. unfold js_fragment_filename.
  change "admintools/(.*)" with ("admintools/" +:+ "(.*)").
  rewrite <- append_assoc.
  rewrite (re_match_literal_group (template_prefix +:+ "admintools/")).
  2: { rewrite all_literal_app, Hliteral. reflexivity. }
  rewrite (re_match_literal_group template_prefix _ Hliteral).
  rewrite strip_prefix_app. cbn [mbind result_bind].
  destruct (strip_prefix template_prefix template_name) as [rest |]; [| reflexivity].
  destruct (strip_prefix "admintools/" rest) as [page |]; reflexivity.
Qed.

Lemma literal_prefix_candidates_witness :
  js_fragment_filename re_match_literal "admin/admintools/users.html" "admin/"
  = Ok "admin/admintools/fragments/js/users.html"
  /\ js_fragment_filename re_match_literal "admin/tools.html" "admin/"
     = Ok "admin/fragments/js/tools.html"
  /\ js_fragment_filename re_match_literal "public/page.html" "admin/"
     = Ok "fragments/js/public/page.html".
Proof.
  split; [| split]; rewrite literal_prefix_candidates; reflexivity.
Defined.

(** * Readable payment lists *)

Lemma get_payments_by_key (db : DB) (a b : Quote.t) :
  Quote.customer a = Quote.customer b ->
  Quote.id a = Quote.id b ->
  Quote.get_payments db a = Quote.get_payments db b.
Proof.
  intros Hcustomer Hid. unfold Quote.get_payments, Quote.payments_key.
  rewrite Hcustomer, Hid. reflexivity.
Qed.

Lemma approve_and_pay_readable (db : DB) (quote : Quote.t) (ref : Z) :
  payments_readable db ->
  exists db', Quote.approve_and_pay db quote ref = Ok db' /\ payments_readable db'.
Proof.
  intros Hreadable. destruct (Hreadable quote) as [payments Hbefore].
  rewrite (approve_and_pay_stores _ _ _ _ Hbefore).
  eexists. split; [reflexivity |]. intros other.
  destruct (decide (Quote.customer other = Quote.customer quote)) as [Hcustomer | Hcustomer];
    [destruct (decide (Quote.id other = Quote.id quote)) as [Hid | Hid] |].
  - exists (payments ++ [ref])%list.
    rewrite (get_payments_by_key _ other quote Hcustomer Hid).
    apply get_payments_stored.
  - destruct (Hreadable other) as [others Hother]. exists others.
    rewrite <- Hother. unfold Quote.get_payments.
    rewrite get_attribute_set_other; [reflexivity |].
    intros Hsame.
    assert (Hkey : Quote.payments_key other = Quote.payments_key quote) by congruence.
    apply payments_key_injective_id in Hkey. contradiction.
  - destruct (Hreadable other) as [others Hother]. exists others.
    rewrite <- Hother. unfold Quote.get_payments.
    rewrite get_attribute_set_other; [reflexivity |]. congruence.
Qed.

(** X20.  [approve_and_pay] keeps the stored payment lists well formed.  In a
    database where the payment list of every quote can be read (as in one
    that stores nothing yet), any sequence of [approve_and_pay] calls, on any
    quotes and with any references, succeeds call by call and leaves a
    database where the payment list of every quote can be read:
    [get_payments] never meets text it cannot parse. *)
Theorem approve_and_pay_keeps_readable (calls : list (Quote.t * Z)) (db : DB) :
  payments_readable empty_db
  /\ (payments_readable db ->
      exists db',
        for_each (fun db call => Quote.approve_and_pay db (fst call) (snd call)) calls db
        = Ok db'
        /\ payments_readable db').
Proof.
  split; [intros quote; exists []; reflexivity |].
  revert db. induction calls as [| [quote ref] calls IH]; intros db Hreadable.
  - exists db. split; [reflexivity | exact Hreadable].
  - destruct (approve_and_pay_readable db quote ref Hreadable) as (db1 & Hdone & Hreadable1).
    destruct (IH db1 Hreadable1) as (db' & Hrest & Hreadable').
    exists db'. split; [| exact Hreadable'].
    cbn [for_each fst snd]. rewrite Hdone. exact Hrest.
Qed.

Lemma approve_and_pay_keeps_readable_witness :
  exists db',
    for_each (fun db call => Quote.approve_and_pay db (fst call) (snd call))
             [(plain_quote, 9); (sample_quote, 11); (plain_quote, -3)] empty_db
    = Ok db'
    /\ payments_readable db'.
Proof.
  destruct (approve_and_pay_keeps_readable
              [(plain_quote, 9); (sample_quote, 11); (plain_quote, -3)] empty_db)
    as [Hempty Hcalls].
  exact (Hcalls Hempty).
Defined.
